(** * Inventory ledger: a shallow embedding of [inventory_gui.py]

    The development follows the two core classes of the program, [Item]
    (one item with its queue of expiry-dated batches) and
    [InventoryManager] (the registry of items, the category set and the
    undo stack), and proves properties of their methods.

    Modelling conventions:
    - Python [int] is [Z]; [str] is [string] (a sequence of bytes, so the
      order on strings is the order on UTF-8 bytes, which agrees with
      Python's code-point order);
    - [datetime.date] is a record of year, month and day, compared
      lexicographically as [datetime.date] does;
    - [datetime.date.today()] is an explicit argument [today];
    - a [dict] is an association list in insertion order, with the keys
      kept distinct by the operations; a [deque] and a [list] are lists
      in the same left-to-right order as in Python; a [set] of strings is
      a [gset string];
    - a Python exception that escapes a method is an explicit [Raise]
      result;
    - Python floats are kept abstract (a carrier with the two operations
      the program applies to prices). *)

From Stdlib Require Import ZArith List Ascii String Lia Bool DecimalString.
From Stdlib Require Import OrderedTypeEx Sorted.
From stdpp Require Import base gmap sets list strings.
Import ListNotations.

#[local] Set Warnings "-clear-no-such-hyp".

Local Open Scope string_scope.
Local Open Scope list_scope.
Local Open Scope Z_scope.

(** ** Dates *)

Module Date.

Record date := mkdate { year : Z; month : Z; day : Z }.

Definition is_leap (y : Z) : bool :=
  (y mod 4 =? 0) && (negb (y mod 100 =? 0) || (y mod 400 =? 0)).

Definition days_in_month (y m : Z) : Z :=
  if m =? 2 then (if is_leap y then 29 else 28)
  else if (m =? 4) || (m =? 6) || (m =? 9) || (m =? 11) then 30
  else 31.

(** The range check of the [datetime.date] constructor
    ([MINYEAR = 1], [MAXYEAR = 9999]). *)
Definition valid (d : date) : bool :=
  (1 <=? year d) && (year d <=? 9999) &&
  (1 <=? month d) && (month d <=? 12) &&
  (1 <=? day d) && (day d <=? days_in_month (year d) (month d)).

(** [datetime.date(y, m, d)]: [None] stands for [ValueError]. *)
Definition make (y m d : Z) : option date :=
  let r := mkdate y m d in if valid r then Some r else None.

(** [a < b] on dates. *)
Definition ltb (a b : date) : bool :=
  (year a <? year b) ||
  ((year a =? year b) &&
   ((month a <? month b) ||
    ((month a =? month b) && (day a <? day b)))).

(** [a <= b], that is [not (b < a)]. *)
Definition leb (a b : date) : bool := negb (ltb b a).

Definition eqb (a b : date) : bool :=
  (year a =? year b) && (month a =? month b) && (day a =? day b).

(** *** Text form *)

Definition digit_char (n : Z) : ascii := ascii_of_N (48 + Z.to_N n).

Definition digit_val (c : ascii) : option Z :=
  let n := Z.of_N (N_of_ascii c) in
  if (48 <=? n) && (n <=? 57) then Some (n - 48) else None.

Definition pad2 (n : Z) : string :=
  String (digit_char (n / 10)) (String (digit_char (n mod 10)) EmptyString).

Definition pad4 (n : Z) : string :=
  String (digit_char (n / 1000))
    (String (digit_char (n / 100 mod 10))
       (String (digit_char (n / 10 mod 10))
          (String (digit_char (n mod 10)) EmptyString))).

(** [str(d)], the ISO form [YYYY-MM-DD] with zero padding. *)
Definition str (d : date) : string :=
  (pad4 (year d) ++ "-" ++ pad2 (month d) ++ "-" ++ pad2 (day d))%string.

(** A continuation byte of UTF-8 and its six bits. *)
Definition continuation (c : ascii) : option N :=
  let b := N_of_ascii c in
  if ((128 <=? b) && (b <? 192))%N then Some (b - 128)%N else None.

(** The first character of a text and the rest of the text: a [str] is
    modelled by its UTF-8 bytes, so a character takes one to four of
    them.  [None] on the empty text and on bytes that are not the
    encoding of a character. *)
Definition code_point (s : string) : option (N * string) :=
  match s with
  | EmptyString => None
  | String c0 s1 =>
      let b0 := N_of_ascii c0 in
      if (b0 <? 128)%N then Some (b0, s1)
      else if (b0 <? 194)%N then None
      else if (b0 <? 224)%N then
        match s1 with
        | String c1 s2 =>
            match continuation c1 with
            | Some x1 => Some ((b0 - 192) * 64 + x1, s2)%N
            | None => None
            end
        | EmptyString => None
        end
      else if (b0 <? 240)%N then
        match s1 with
        | String c1 (String c2 s3) =>
            match continuation c1, continuation c2 with
            | Some x1, Some x2 =>
                let cp := ((b0 - 224) * 4096 + x1 * 64 + x2)%N in
                if ((2048 <=? cp) && negb ((55296 <=? cp) && (cp <? 57344)))%N
                then Some (cp, s3) else None
            | _, _ => None
            end
        | _ => None
        end
      else if (b0 <? 245)%N then
        match s1 with
        | String c1 (String c2 (String c3 s4)) =>
            match continuation c1, continuation c2, continuation c3 with
            | Some x1, Some x2, Some x3 =>
                let cp :=
                  ((b0 - 240) * 262144 + x1 * 4096 + x2 * 64 + x3)%N in
                if ((65536 <=? cp) && (cp <? 1114112))%N
                then Some (cp, s4) else None
            | _, _, _ => None
            end
        | _ => None
        end
      else None
  end.

(** The characters that stand for the digit 0 in the scripts of
    Unicode 14.0, the tables of CPython 3.11: the decimal digits
    (category [Nd]) are the ten characters that start at each of them.
    These are the characters that [\d] matches in a pattern on [str] and
    that [int] reads. *)
Definition decimal_zeros : list N :=
  [48; 1632; 1776; 1984; 2406; 2534; 2662; 2790; 2918; 3046; 3174; 3302;
   3430; 3558; 3664; 3792; 3872; 4160; 4240; 6112; 6160; 6470; 6608; 6784;
   6800; 6992; 7088; 7232; 7248; 42528; 43216; 43264; 43472; 43504; 43600;
   44016; 65296; 66720; 68912; 69734; 69872; 69942; 70096; 70384; 70736;
   70864; 71248; 71360; 71472; 71904; 72016; 72784; 73040; 73120; 92768;
   92864; 93008; 120782; 120792; 120802; 120812; 120822; 123200; 123632;
   125264; 130032]%N.

(** The value of a decimal digit; [None] for any other character. *)
Definition decimal_value (cp : N) : option Z :=
  match List.find (fun z => ((z <=? cp) && (cp <? z + 10))%N) decimal_zeros with
  | Some z => Some (Z.of_N (cp - z))
  | None => None
  end.

(** [\d]: one decimal digit of any script at the head of the text. *)
Definition decimal (s : string) : option (Z * string) :=
  match code_point s with
  | Some (cp, rest) =>
      match decimal_value cp with
      | Some v => Some (v, rest)
      | None => None
      end
  | None => None
  end.

(** A text in the ISO form [YYYY-MM-DD]: the text that [str] gives for
    a date in range. *)
Definition iso (s : string) : Prop :=
  exists d, valid d = true /\ str d = s.

(** [%Y]: exactly four digits, [\d\d\d\d]. *)
Definition parse_Y (s : string) : option (Z * string) :=
  match decimal s with
  | Some (x3, s1) =>
      match decimal s1 with
      | Some (x2, s2) =>
          match decimal s2 with
          | Some (x1, s3) =>
              match decimal s3 with
              | Some (x0, rest) =>
                  Some (1000 * x3 + 100 * x2 + 10 * x1 + x0, rest)
              | None => None
              end
          | None => None
          end
      | None => None
      end
  | None => None
  end.

(** [%m]: the alternatives [1[0-2]], [0[1-9]], [[1-9]], tried in this
    order.  A month is followed by [-] in the format, so a later
    alternative cannot succeed where an earlier one matched. *)
Definition parse_m (s : string) : option (Z * string) :=
  match s with
  | String a rest =>
      match digit_val a with
      | Some x =>
          let two :=
            match rest with
            | String b rest' =>
                match digit_val b with
                | Some y =>
                    if (x =? 1) && (y <=? 2) then Some (10 + y, rest')
                    else if (x =? 0) && (1 <=? y) then Some (y, rest')
                    else None
                | None => None
                end
            | EmptyString => None
            end in
          match two with
          | Some r => Some r
          | None => if 1 <=? x then Some (x, rest) else None
          end
      | None => None
      end
  | EmptyString => None
  end.

(** [%d]: the alternatives [3[0-1]], [[1-2]\d], [0[1-9]], [[1-9]] and
    a space followed by [[1-9]], tried in this order.  The classes in
    brackets hold ASCII digits; the [\d] of the second alternative is a
    decimal digit of any script. *)
Definition parse_d (s : string) : option (Z * string) :=
  match s with
  | String a rest =>
      match digit_val a with
      | Some x =>
          let second :=
            match rest with
            | String b rest' =>
                match digit_val b with
                | Some y => Some (y, rest')
                | None => None
                end
            | EmptyString => None
            end in
          let two :=
            if x =? 3 then
              match second with
              | Some (y, rest') =>
                  if y <=? 1 then Some (30 + y, rest') else None
              | None => None
              end
            else if (1 <=? x) && (x <=? 2) then
              match decimal rest with
              | Some (y, rest') => Some (10 * x + y, rest')
              | None => None
              end
            else if x =? 0 then
              match second with
              | Some (y, rest') =>
                  if 1 <=? y then Some (y, rest') else None
              | None => None
              end
            else None in
          match two with
          | Some r => Some r
          | None => if 1 <=? x then Some (x, rest) else None
          end
      | None =>
          if Ascii.eqb a " "%char then
            match rest with
            | String b rest' =>
                match digit_val b with
                | Some y => if 1 <=? y then Some (y, rest') else None
                | None => None
                end
            | EmptyString => None
            end
          else None
      end
  | EmptyString => None
  end.

Definition expect_dash (s : string) : option string :=
  match s with
  | String c rest => if Ascii.eqb c "-"%char then Some rest else None
  | EmptyString => None
  end.

(** [datetime.datetime.strptime(s, "%Y-%m-%d").date()]: the text must
    match the format with nothing left over, and the three numbers must
    form a date.  [None] stands for [ValueError]. *)
Definition strptime (s : string) : option date :=
  match parse_Y s with
  | Some (y, s1) =>
      match expect_dash s1 with
      | Some s2 =>
          match parse_m s2 with
          | Some (m, s3) =>
              match expect_dash s3 with
              | Some s4 =>
                  match parse_d s4 with
                  | Some (d, EmptyString) => make y m d
                  | _ => None
                  end
              | None => None
              end
          | None => None
          end
      | None => None
      end
  | None => None
  end.

End Date.

(** ** Python containers *)

(** The exceptions that can escape a method of the registry. *)
Inductive exn :=
| KeyError (key : string)
| OverflowError.

(** A method either returns a value or lets an exception escape. *)
Inductive result (A : Type) :=
| Ok (a : A)
| Raise (e : exn).

Arguments Ok {A} a.
Arguments Raise {A} e.

Module Py.

(** [str(n)] for an [int]. *)
Definition str_int (n : Z) : string := NilZero.string_of_int (Z.to_int n).

(** The product [n * x] of an [int] and a float first converts [n] to a
    float, and the conversion raises [OverflowError] when [n] rounds
    beyond the largest float: from 2^1024 - 2^970 on, in absolute
    value, whatever [x] is. *)
Definition float_overflows (n : Z) : bool := 2 ^ 1024 - 2 ^ 970 <=? Z.abs n.

(** [sorted(l, key=key)], with [ltb] the order [<] of the keys.  The sort
    is stable, which determines its result; it is computed here by
    insertion, every element going in front of the first one that is not
    smaller than it. *)
Section Sorted.
Context {A K : Type} (key : A -> K) (ltb : K -> K -> bool).

Fixpoint insert (x : A) (l : list A) : list A :=
  match l with
  | [] => [x]
  | y :: l' => if ltb (key y) (key x) then y :: insert x l' else x :: y :: l'
  end.

Fixpoint sorted (l : list A) : list A :=
  match l with
  | [] => []
  | x :: l' => insert x (sorted l')
  end.

(** Adjacent elements are in order: no element is smaller than the one
    before it. *)
Fixpoint is_sorted (l : list A) : bool :=
  match l with
  | [] => true
  | x :: l' =>
      match l' with
      | [] => true
      | y :: _ => negb (ltb (key y) (key x)) && is_sorted l'
      end
  end.
End Sorted.

(** [l.pop()] on a list: the last element and the list without it;
    [None] when the list is empty. *)
Fixpoint pop {A : Type} (l : list A) : option (list A * A) :=
  match l with
  | [] => None
  | x :: l' =>
      match pop l' with
      | None => Some ([], x)
      | Some (r, y) => Some (x :: r, y)
      end
  end.

(** A [dict] with string keys, in insertion order. *)
Section Dict.
Context {V : Type}.

Definition dict := list (string * V).

Fixpoint get (k : string) (d : dict) : option V :=
  match d with
  | [] => None
  | (k', v) :: d' => if String.eqb k k' then Some v else get k d'
  end.

(** [k in d] *)
Definition mem (k : string) (d : dict) : bool :=
  match get k d with Some _ => true | None => false end.

(** [d[k] = v]: a present key keeps its place, a new key goes last. *)
Fixpoint set (k : string) (v : V) (d : dict) : dict :=
  match d with
  | [] => [(k, v)]
  | (k', v') :: d' =>
      if String.eqb k k' then (k', v) :: d' else (k', v') :: set k v d'
  end.

(** [del d[k]] for a present key. *)
Fixpoint del (k : string) (d : dict) : dict :=
  match d with
  | [] => []
  | (k', v') :: d' =>
      if String.eqb k k' then d' else (k', v') :: del k d'
  end.

(** In-place update of the object stored under [k]. *)
Fixpoint alter (f : V -> V) (k : string) (d : dict) : dict :=
  match d with
  | [] => []
  | (k', v') :: d' =>
      if String.eqb k k' then (k', f v') :: d' else (k', v') :: alter f k d'
  end.

Definition keys (d : dict) : list string := map fst d.
Definition values (d : dict) : list V := map snd d.
End Dict.

Arguments dict V : clear implicits.

End Py.

(** ** The program *)

Section Inventory.

(** Python floats: the carrier, [n * x] for an [int] [n], and the
    format [f"{x:.2f}"]. *)
Variable float : Type.
Variable int_mul_float : Z -> float -> float.
Variable format_2f : float -> string.

(** *** class Item *)

(** An entry [(expiry_date, quantity)] of [expiry_queue]. *)
Definition batch : Type := Date.date * Z.

Record Item := mkItem {
  name : string;
  category : string;
  price : float;
  quantity : Z;
  expiry_queue : list batch;
  date_added : Date.date
}.

(** [Item(name, category, price)] *)
Definition Item_init (n c : string) (p : float) (today : Date.date) : Item :=
  {| name := n; category := c; price := p; quantity := 0;
     expiry_queue := []; date_added := today |}.

Definition sort_queue (q : list batch) : list batch :=
  Py.sorted (fst : batch -> Date.date) Date.ltb q.

Definition add_stock (it : Item) (qty : Z) (expiry_date : Date.date) : Item :=
  {| name := name it; category := category it; price := price it;
     quantity := quantity it + qty;
     expiry_queue := sort_queue (expiry_queue it ++ [(expiry_date, qty)]);
     date_added := date_added it |}.

(** The [while] loop of [Item.remove_expired] over the queue, the
    item's quantity and the running total [removed]. *)
Fixpoint drain (today : Date.date) (queue : list batch) (qty removed : Z)
  : list batch * Z * Z :=
  match queue with
  | [] => ([], qty, removed)
  | (d, q) :: rest =>
      if Date.ltb d today then drain today rest (qty - q) (removed + q)
      else (queue, qty, removed)
  end.

Definition Item_remove_expired (it : Item) (today : Date.date) : Z * Item :=
  let '(queue, qty, removed) := drain today (expiry_queue it) (quantity it) 0 in
  (removed,
   {| name := name it; category := category it; price := price it;
      quantity := qty; expiry_queue := queue; date_added := date_added it |}).

(** [item.quantity += delta], as [undo_last_action] does it. *)
Definition Item_add_quantity (it : Item) (delta : Z) : Item :=
  {| name := name it; category := category it; price := price it;
     quantity := quantity it + delta; expiry_queue := expiry_queue it;
     date_added := date_added it |}.

Record item_dict := mk_item_dict {
  d_name : string;
  d_category : string;
  d_price : float;
  d_quantity : Z;
  d_expiry_dates : list string;
  d_date_added : string
}.

Definition to_dict (it : Item) : item_dict :=
  {| d_name := name it; d_category := category it; d_price := price it;
     d_quantity := quantity it;
     d_expiry_dates := map (fun exp : batch => Date.str (fst exp)) (expiry_queue it);
     d_date_added := Date.str (date_added it) |}.

(** *** class InventoryManager *)

(** The tuples pushed on [action_stack]. *)
Inductive action :=
| delete_item (n : string)
| update_quantity_by (n : string) (delta : Z).

Record InventoryManager := mkManager {
  items : Py.dict Item;
  action_stack : list action;
  categories : gset string
}.

Definition InventoryManager_init : InventoryManager :=
  {| items := []; action_stack := []; categories := ∅ |}.

Definition add_item (m : InventoryManager) (n c : string) (p : float)
    (today : Date.date) : bool * InventoryManager :=
  if negb (Py.mem n (items m)) then
    (true,
     {| items := Py.set n (Item_init n c p today) (items m);
        action_stack := action_stack m ++ [delete_item n];
        categories := categories m ∪ {[ c ]} |})
  else (false, m).

Definition update_quantity (m : InventoryManager) (n : string) (qty : Z)
    (expiry_date : string) : bool * InventoryManager :=
  if Py.mem n (items m) then
    match Date.strptime expiry_date with
    | Some d =>
        (true,
         {| items := Py.alter (fun it => add_stock it qty d) n (items m);
            action_stack := action_stack m ++ [update_quantity_by n (- qty)];
            categories := categories m |})
    | None => (false, m)
    end
  else (false, m).

Definition removed_message (removed : Z) (n : string) : string :=
  (Py.str_int removed ++ " units removed from '" ++ n ++ "'")%string.

(** The loop of [InventoryManager.remove_expired] over [items.values()].
    Every item reads the date of the day; the loop is taken to run
    within one day [today]. *)
Fixpoint remove_expired_loop (today : Date.date) (its : Py.dict Item)
  : list string * Py.dict Item :=
  match its with
  | [] => ([], [])
  | (k, it) :: rest =>
      let '(removed, it') := Item_remove_expired it today in
      let '(results, rest') := remove_expired_loop today rest in
      ((if removed =? 0 then results
        else removed_message removed (name it') :: results),
       (k, it') :: rest')
  end.

Definition remove_expired (m : InventoryManager) (today : Date.date)
  : list string * InventoryManager :=
  let '(results, its) := remove_expired_loop today (items m) in
  (results,
   {| items := its; action_stack := action_stack m;
      categories := categories m |}).

(** [undo_last_action].  A [KeyError] escapes after the record has been
    popped, so the state that remains is returned with it. *)
Definition undo_last_action (m : InventoryManager)
  : result string * InventoryManager :=
  match Py.pop (action_stack m) with
  | None => (Ok "No actions to undo.", m)
  | Some (stack, delete_item n) =>
      match Py.get n (items m) with
      | Some item =>
          (Ok ("Undid: Deleted item '" ++ n ++ "'")%string,
           {| items := Py.del n (items m); action_stack := stack;
              categories := categories m ∖ {[ category item ]} |})
      | None =>
          (Raise (KeyError n),
           {| items := items m; action_stack := stack;
              categories := categories m |})
      end
  | Some (stack, update_quantity_by n delta) =>
      match Py.get n (items m) with
      | Some _ =>
          (Ok ("Undid: Quantity adjustment for '" ++ n ++ "'")%string,
           {| items :=
                Py.alter (fun it => Item_add_quantity it delta) n (items m);
              action_stack := stack; categories := categories m |})
      | None =>
          (Raise (KeyError n),
           {| items := items m; action_stack := stack;
              categories := categories m |})
      end
  end.

(** A row of the report.  [Price] and [Value] hold the formatted text. *)
Record row := mk_row {
  Name : string;
  Category : string;
  Quantity : Z;
  Price : string;
  Value : string;
  Expiry_Dates : string
}.

(** [n * x] for an [int] [n] and a float [x]: [int_mul_float] gives the
    product when [n] converts to a float. *)
Definition int_times_float (n : Z) (x : float) : result float :=
  if Py.float_overflows n then Raise OverflowError
  else Ok (int_mul_float n x).

(** The row of an item, given the product of its quantity and price. *)
Definition row_with_value (n : string) (it : Item) (value : float) : row :=
  {| Name := n; Category := category it; Quantity := quantity it;
     Price := ("₹" ++ format_2f (price it))%string;
     Value := ("₹" ++ format_2f value)%string;
     Expiry_Dates :=
       String.concat ", "
         (map (fun exp : batch => Date.str (fst exp)) (expiry_queue it)) |}.

(** The dictionary that the loop of [generate_report] builds for an
    item; the product in it can raise. *)
Definition report_row (n : string) (it : Item) : result row :=
  match int_times_float (quantity it) (price it) with
  | Ok value => Ok (row_with_value n it value)
  | Raise e => Raise e
  end.

(** Truth value of the argument [category_filter]: [None] and the empty
    string are false. *)
Definition truthy (category_filter : option string) : bool :=
  match category_filter with
  | None => false
  | Some s => negb (String.eqb s "")
  end.

(** [item.category != category_filter] *)
Definition differs (c : string) (category_filter : option string) : bool :=
  match category_filter with
  | None => true
  | Some s => negb (String.eqb c s)
  end.

(** The loop of [generate_report]: an exception raised for an item ends
    it, and the rows made so far are lost. *)
Fixpoint report_loop (category_filter : option string) (its : Py.dict Item)
  : result (list row) :=
  match its with
  | [] => Ok []
  | (n, it) :: rest =>
      if truthy category_filter && differs (category it) category_filter
      then report_loop category_filter rest
      else
        match report_row n it with
        | Raise e => Raise e
        | Ok r =>
            match report_loop category_filter rest with
            | Raise e => Raise e
            | Ok rows => Ok (r :: rows)
            end
        end
  end.

(** The items have distinct names, so [sorted(self.items.items())]
    orders the pairs by name alone. *)
Definition generate_report (m : InventoryManager)
    (category_filter : option string) : result (list row) :=
  report_loop category_filter
    (Py.sorted (fst : string * Item -> string) String.ltb (items m)).

(** The object that [export_to_json] hands to [json.dump]; [json.load]
    gives it back to [import_from_json]. *)
Definition export_to_json (m : InventoryManager) : Py.dict item_dict :=
  map (fun e : string * Item => (fst e, to_dict (snd e))) (items m).

(** The list comprehension that parses the dates of one entry; [None]
    when one of them raises [ValueError]. *)
Fixpoint parse_dates (l : list string) : option (list Date.date) :=
  match l with
  | [] => Some []
  | s :: l' =>
      match Date.strptime s with
      | None => None
      | Some d =>
          match parse_dates l' with
          | None => None
          | Some ds => Some (d :: ds)
          end
      end
  end.

Fixpoint replay_dates (m : InventoryManager) (n : string)
    (ds : list Date.date) : InventoryManager :=
  match ds with
  | [] => m
  | d :: ds' => replay_dates (snd (update_quantity m n 1 (Date.str d))) n ds'
  end.

(** [import_from_json] on the loaded object.  An exception inside the
    loop ends it with [False] and keeps what was imported before. *)
Fixpoint import_from_json (m : InventoryManager) (data : Py.dict item_dict)
    (today : Date.date) : bool * InventoryManager :=
  match data with
  | [] => (true, m)
  | (n, item_data) :: rest =>
      let m1 := snd (add_item m n (d_category item_data) (d_price item_data) today) in
      match parse_dates (d_expiry_dates item_data) with
      | None => (false, m1)
      | Some ds => import_from_json (replay_dates m1 n ds) rest today
      end
  end.

(** *** Runs of the registry *)

Inductive op :=
| AddItem (n c : string) (p : float) (today : Date.date)
| AddStock (n : string) (qty : Z) (expiry_date : string)
| EvictAllExpired (today : Date.date)
| UndoLast.

(** The state after one call; [None] when an exception escapes. *)
Definition apply_op (m : InventoryManager) (o : op) : option InventoryManager :=
  match o with
  | AddItem n c p today => Some (snd (add_item m n c p today))
  | AddStock n qty e => Some (snd (update_quantity m n qty e))
  | EvictAllExpired today => Some (snd (remove_expired m today))
  | UndoLast =>
      match undo_last_action m with
      | (Ok _, m') => Some m'
      | (Raise _, _) => None
      end
  end.

Fixpoint run (m : InventoryManager) (ops : list op) : option InventoryManager :=
  match ops with
  | [] => Some m
  | o :: ops' =>
      match apply_op m o with
      | Some m' => run m' ops'
      | None => None
      end
  end.

(** The record that [UndoLast] would pop. *)
Definition top (m : InventoryManager) : option action :=
  match Py.pop (action_stack m) with
  | Some (_, a) => Some a
  | None => None
  end.

(** [o] undoes a stock update in state [m]. *)
Definition undoes_stock (m : InventoryManager) (o : op) : bool :=
  match o, top m with
  | UndoLast, Some (update_quantity_by _ _) => true
  | _, _ => false
  end.

(** [o] undoes the creation of an item in state [m]. *)
Definition undoes_create (m : InventoryManager) (o : op) : bool :=
  match o, top m with
  | UndoLast, Some (delete_item _) => true
  | _, _ => false
  end.

(** States reached from the empty registry by calls none of which is
    [excluded]. *)
Inductive reachable_without (excluded : InventoryManager -> op -> bool)
  : InventoryManager -> Prop :=
| reach_init : reachable_without excluded InventoryManager_init
| reach_step m o m' :
    reachable_without excluded m ->
    excluded m o = false ->
    apply_op m o = Some m' ->
    reachable_without excluded m'.

Definition reachable : InventoryManager -> Prop :=
  reachable_without (fun _ _ => false).

(** A run none of whose calls is [excluded]. *)
Fixpoint run_without (excluded : InventoryManager -> op -> bool)
    (m : InventoryManager) (ops : list op) : option InventoryManager :=
  match ops with
  | [] => Some m
  | o :: ops' =>
      if excluded m o then None
      else
        match apply_op m o with
        | Some m' => run_without excluded m' ops'
        | None => None
        end
  end.

(** *** Derived quantities used in the statements *)

(** Sum of the quantities of a queue. *)
Definition batch_total (q : list batch) : Z :=
  fold_right (fun b acc => snd b + acc) 0 q.

Definition expired (today : Date.date) (b : batch) : bool :=
  Date.ltb (fst b) today.

Definition queue_sorted (q : list batch) : bool :=
  Py.is_sorted (fst : batch -> Date.date) Date.ltb q.

(** Categories of the items of the registry. *)
Definition referenced (its : Py.dict Item) : gset string :=
  list_to_set (map (fun e : string * Item => category (snd e)) its).

Definition expiring_on (d : Date.date) (b : batch) : bool :=
  Date.eqb (fst b) d.

(** A sequence of [add_stock(quantity, expiry_date)] calls on one item. *)
Definition add_stocks (it : Item) (calls : list (Z * Date.date)) : Item :=
  fold_left (fun it c => add_stock it (fst c) (snd c)) calls it.

(** The batch that a call [add_stock(quantity, expiry_date)] appends. *)
Definition batch_of (c : Z * Date.date) : batch := (snd c, fst c).

(** For every item, in the order of [items], its name and what
    [Item.remove_expired] returns for it on the day [today]. *)
Definition evictions (today : Date.date) (its : Py.dict Item)
  : list (string * Z) :=
  map (fun e : string * Item =>
         (name (snd e), fst (Item_remove_expired (snd e) today))) its.

(** The names in the [delete_item] records of a stack, oldest first. *)
Fixpoint created (s : list action) : list string :=
  match s with
  | [] => []
  | delete_item n :: s' => n :: created s'
  | update_quantity_by _ _ :: s' => created s'
  end.

(** A stack as the operations build it: every item is created once, and
    a stock update follows the creation of its item. *)
Inductive stack_wf : list action -> Prop :=
| stack_wf_nil : stack_wf []
| stack_wf_create s n :
    stack_wf s -> ~ In n (created s) -> stack_wf (s ++ [delete_item n])
| stack_wf_update s n delta :
    stack_wf s -> In n (created s) -> stack_wf (s ++ [update_quantity_by n delta]).

(** The item's counter agrees with its queue. *)
Definition consistent (it : Item) : Prop :=
  quantity it = batch_total (expiry_queue it).

(** Every expiry date of the queue is a date in range. *)
Definition valid_dates (it : Item) : Prop :=
  Forall (fun b : batch => Date.valid (fst b) = true) (expiry_queue it).

(** The item that [import_from_json] builds under the name [k] from
    the exported form of [it]: a new item with the category and the
    price of [it] and one unit of stock for every listed expiry date. *)
Definition reimported (today : Date.date) (k : string) (it : Item) : Item :=
  add_stocks (Item_init k (category it) (price it) today)
    (map (fun b : batch => (1, fst b)) (expiry_queue it)).

(** All batches of the registry have a positive quantity. *)
Definition positive_batches (its : Py.dict Item) : Prop :=
  Forall (fun e : string * Item =>
            Forall (fun b : batch => 0 < snd b) (expiry_queue (snd e))) its.


(** *** Queries and the summary of the report *)

(** The dictionary that [get_item_details] returns: [Price] and
    [Total Value] are floats, [Expiry Dates] is a list of texts. *)
Record details := mk_details {
  det_Name : string;
  det_Category : string;
  det_Quantity : Z;
  det_Price : float;
  det_Total_Value : float;
  det_Expiry_Dates : list string
}.

(** [get_item_details]: [Ok None] for a name that is not there; the
    product for [Total Value] can raise. *)
Definition get_item_details (m : InventoryManager) (n : string)
  : result (option details) :=
  if Py.mem n (items m) then
    match Py.get n (items m) with
    | Some item =>
        match int_times_float (quantity item) (price item) with
        | Ok total =>
            Ok (Some {| det_Name := n; det_Category := category item;
                        det_Quantity := quantity item;
                        det_Price := price item;
                        det_Total_Value := total;
                        det_Expiry_Dates :=
                          map (fun exp : batch => Date.str (fst exp))
                            (expiry_queue item) |})
        | Raise e => Raise e
        end
    | None => Ok None
    end
  else Ok None.

(** [float(s)] for a text [s] ([None] stands for [ValueError]), the sum
    of two floats and the float of an [int]. *)
Variable float_of_str : string -> option float.
Variable float_add : float -> float -> float.
Variable float_of_int : Z -> float.

(** [s.replace('$', '')] *)
Fixpoint replace_dollar (s : string) : string :=
  match s with
  | EmptyString => EmptyString
  | String c s' =>
      if Ascii.eqb c "$"%char then replace_dollar s'
      else String c (replace_dollar s')
  end.

(** The generator [float(item['Value'].replace('$', '')) for item in
    report], consumed by [sum]: [None] when a conversion raises. *)
Fixpoint report_values (report : list row) : option (list float) :=
  match report with
  | [] => Some []
  | r :: report' =>
      match float_of_str (replace_dollar (Value r)) with
      | None => None
      | Some x =>
          match report_values report' with
          | None => None
          | Some xs => Some (x :: xs)
          end
      end
  end.

(** The three texts that [update_report] computes for the summary box
    ([Total Items], [Total Quantity], [Total Value]); [None] when
    [ValueError] escapes before any of them is set. *)
Definition report_summary (report : list row)
  : option (string * string * string) :=
  let total_items := Z.of_nat (length report) in
  let total_qty := fold_left (fun acc r => acc + Quantity r) report 0 in
  match report_values report with
  | None => None
  | Some xs =>
      let total_value := fold_left float_add xs (float_of_int 0) in
      Some (Py.str_int total_items, Py.str_int total_qty,
            ("$" ++ format_2f total_value)%string)
  end.

(** The item passes the filter of [generate_report]. *)
Definition kept (category_filter : option string) (it : Item) : bool :=
  negb (truthy category_filter && differs (category it) category_filter).

(** The row of an item whose quantity converts to a float. *)
Definition row_of (n : string) (it : Item) : row :=
  row_with_value n it (int_mul_float (quantity it) (price it)).

(** The quantity of the item is beyond the range of a float. *)
Definition overflows (it : Item) : bool := Py.float_overflows (quantity it).

(** [o] is a stock update with a quantity that is not positive. *)
Definition stocks_nonpositive (m : InventoryManager) (o : op) : bool :=
  match o with
  | AddStock _ qty _ => qty <=? 0
  | _ => false
  end.

(** No batch of the queue has expired on the day [today]. *)
Definition none_expired (today : Date.date) (it : Item) : Prop :=
  Forall (fun b : batch => expired today b = false) (expiry_queue it).

End Inventory.

Arguments mkItem {float}.
Arguments name {float}.
Arguments category {float}.
Arguments price {float}.
Arguments quantity {float}.
Arguments expiry_queue {float}.
Arguments date_added {float}.
Arguments Item_init {float}.
Arguments add_stock {float}.
Arguments Item_remove_expired {float}.
Arguments mk_item_dict {float}.
Arguments d_name {float}.
Arguments d_category {float}.
Arguments d_price {float}.
Arguments d_quantity {float}.
Arguments d_expiry_dates {float}.
Arguments d_date_added {float}.
Arguments to_dict {float}.
Arguments mkManager {float}.
Arguments items {float}.
Arguments action_stack {float}.
Arguments categories {float}.
Arguments InventoryManager_init {float}.
Arguments add_item {float}.
Arguments update_quantity {float}.
Arguments remove_expired_loop {float}.
Arguments remove_expired {float}.
Arguments undo_last_action {float}.
Arguments report_row {float}.
Arguments int_times_float {float}.
Arguments row_with_value {float}.
Arguments kept {float}.
Arguments row_of {float}.
Arguments overflows {float}.
Arguments Py.float_overflows : simpl never.
Arguments report_loop {float}.
Arguments generate_report {float}.
Arguments export_to_json {float}.
Arguments replay_dates {float}.
Arguments import_from_json {float}.
Arguments AddItem {float}.
Arguments AddStock {float}.
Arguments EvictAllExpired {float}.
Arguments UndoLast {float}.
Arguments apply_op {float}.
Arguments run {float}.
Arguments top {float}.
Arguments undoes_stock {float}.
Arguments undoes_create {float}.
Arguments reachable_without {float}.
Arguments reach_init {float}.
Arguments reach_step {float}.
Arguments reachable {float}.
Arguments run_without {float}.
Arguments referenced {float}.
Arguments mk_details {float}.
Arguments det_Name {float}.
Arguments det_Category {float}.
Arguments det_Quantity {float}.
Arguments det_Price {float}.
Arguments det_Total_Value {float}.
Arguments det_Expiry_Dates {float}.
Arguments get_item_details {float}.
Arguments report_values {float}.
Arguments report_summary {float}.
Arguments stocks_nonpositive {float}.
Arguments none_expired {float}.
Arguments add_stocks {float}.
Arguments reimported {float}.
Arguments Item_add_quantity {float}.
Arguments consistent {float}.
Arguments valid_dates {float}.
Arguments evictions {float}.
Arguments positive_batches {float}.

(** ** Sample runs

    The runs below are used to evaluate the program on concrete inputs.
    Prices are whole numbers in them; no statement depends on a price. *)

Module Examples.

Definition today : Date.date := Date.mkdate 2024 6 1.

Definition empty : InventoryManager Z := InventoryManager_init.

(** The state after a run from the empty registry; the empty registry
    when an exception escapes. *)
Definition state_after (ops : list (op Z)) : InventoryManager Z :=
  match run empty ops with
  | Some m => m
  | None => empty
  end.

(** One item with one batch of ten units. *)
Definition milk_ops : list (op Z) :=
  [AddItem "Milk" "Dairy" 50 today; AddStock "Milk" 10 "2099-01-01"].

Definition milk : InventoryManager Z := state_after milk_ops.

(** The same run with the stock update undone. *)
Definition milk_undone : InventoryManager Z :=
  state_after (milk_ops ++ [UndoLast]).

(** Two items of one category, the creation of the second one undone. *)
Definition dairy_ops : list (op Z) :=
  [AddItem "Milk" "Dairy" 50 today; AddItem "Cheese" "Dairy" 80 today;
   UndoLast].

Definition dairy : InventoryManager Z := state_after dairy_ops.

(** Two items added in the order pear, apple, each with expired stock;
    the pear also has a batch that expires on [today] and a later one. *)
Definition fruit_ops : list (op Z) :=
  [AddItem "pear" "Fruit" 3 today; AddItem "apple" "Fruit" 2 today;
   AddStock "pear" 4 "2024-06-01"; AddStock "pear" 5 "2020-01-01";
   AddStock "apple" 7 "2020-02-01"; AddStock "pear" 6 "2030-01-01"].

Definition fruit : InventoryManager Z := state_after fruit_ops.

(** A run with an eviction and the undo of a creation, and no undo of
    a stock update. *)
Definition shop_ops : list (op Z) :=
  [AddItem "Milk" "Dairy" 50 today; AddStock "Milk" 10 "2099-01-01";
   AddStock "Milk" 3 "2020-01-01"; AddItem "Cheese" "Dairy" 80 today;
   UndoLast; EvictAllExpired today].

Definition shop : InventoryManager Z := state_after shop_ops.

(** One item stocked with a quantity beyond the range of a float. *)
Definition gold_ops : list (op Z) :=
  [AddItem "Gold" "Metal" 0 today; AddStock "Gold" (10 ^ 400) "2099-01-01"].

Definition gold : InventoryManager Z := state_after gold_ops.

Definition milk_item : Item Z :=
  {| name := "Milk"; category := "Dairy"; price := 50; quantity := 10;
     expiry_queue := [(Date.mkdate 2099 1 1, 10)]; date_added := today |}.

(** A reader of whole numbers written with ASCII digits, used where a
    sample run needs a conversion from text. *)
Fixpoint digits (s : string) (acc : Z) : option Z :=
  match s with
  | EmptyString => Some acc
  | String c s' =>
      match Date.digit_val c with
      | Some v => digits s' (10 * acc + v)
      | None => None
      end
  end.

Definition whole_number (s : string) : option Z :=
  match s with
  | EmptyString => None
  | String _ _ => digits s 0
  end.

(** An exported entry whose second date does not exist. *)
Definition bad_entry : item_dict Z :=
  {| d_name := "Tea"; d_category := "Drinks"; d_price := 4; d_quantity := 2;
     d_expiry_dates := ["2030-01-01"; "2030-02-30"];
     d_date_added := "2024-06-01" |}.

(** An exported entry for the name of an item of [milk]. *)
Definition milk_entry : item_dict Z :=
  {| d_name := "Milk"; d_category := "Other"; d_price := 1; d_quantity := 7;
     d_expiry_dates := ["2031-05-05"; "2030-1-2"];
     d_date_added := "2024-06-01" |}.

Definition pear : Item Z :=
  {| name := "pear"; category := "Fruit"; price := 3; quantity := 15;
     expiry_queue :=
       [(Date.mkdate 2020 1 1, 5); (Date.mkdate 2024 6 1, 4);
        (Date.mkdate 2030 1 1, 6)];
     date_added := today |}.

End Examples.

(** ** Facts about dates *)

Ltac bool_cases :=
  repeat match goal with
    | H : context [Z.ltb ?a ?b] |- _ => destruct (Z.ltb_spec a b); simpl in H
    | H : context [Z.eqb ?a ?b] |- _ => destruct (Z.eqb_spec a b); simpl in H
    | H : context [Z.leb ?a ?b] |- _ => destruct (Z.leb_spec a b); simpl in H
    | |- context [Z.ltb ?a ?b] => destruct (Z.ltb_spec a b); simpl
    | |- context [Z.eqb ?a ?b] => destruct (Z.eqb_spec a b); simpl
    | |- context [Z.leb ?a ?b] => destruct (Z.leb_spec a b); simpl
    end.

Ltac date_order :=
  unfold Date.leb, Date.ltb, Date.eqb in *; simpl in *; bool_cases;
  try discriminate; try reflexivity; try lia.

Lemma date_ltb_irrefl (a : Date.date) : Date.ltb a a = false.
Proof. destruct a. date_order. Qed.

Lemma date_ltb_trans (a b c : Date.date) :
  Date.ltb a b = true -> Date.ltb b c = true -> Date.ltb a c = true.
Proof. destruct a, b, c. intros H1 H2. date_order. Qed.

Lemma date_ltb_asym (a b : Date.date) :
  Date.ltb a b = true -> Date.ltb b a = false.
Proof. destruct a, b. intros H1. date_order. Qed.

(** Trichotomy: two dates neither of which is before the other are the
    same date. *)
Lemma date_ltb_total (a b : Date.date) :
  Date.ltb a b = false -> Date.ltb b a = false -> a = b.
Proof.
  destruct a, b. intros H1 H2. date_order.
  f_equal; lia.
Qed.

Lemma date_ltb_le_trans (a b c : Date.date) :
  Date.ltb b a = false -> Date.ltb b c = true -> Date.ltb a c = true.
Proof. destruct a, b, c. intros H1 H2. date_order. Qed.

Lemma date_le_ltb_trans (a b c : Date.date) :
  Date.ltb a b = true -> Date.ltb c b = false -> Date.ltb a c = true.
Proof. destruct a, b, c. intros H1 H2. date_order. Qed.

Lemma date_leb_trans (a b c : Date.date) :
  Date.ltb b a = false -> Date.ltb c b = false -> Date.ltb c a = false.
Proof. destruct a, b, c. intros H1 H2. date_order. Qed.

Lemma date_eqb_eq (a b : Date.date) : Date.eqb a b = true <-> a = b.
Proof.
  destruct a, b. split; intros H.
  - date_order. f_equal; lia.
  - inversion H; subst. date_order.
Qed.

Lemma date_eqb_refl (a : Date.date) : Date.eqb a a = true.
Proof. apply date_eqb_eq. reflexivity. Qed.

Lemma date_eqb_ltb (a b : Date.date) :
  Date.eqb a b = true -> Date.ltb a b = false.
Proof. intros H. apply date_eqb_eq in H. subst. apply date_ltb_irrefl. Qed.

(** *** Printing a date and reading it back *)

Lemma digit_val_char (n : Z) :
  0 <= n <= 9 -> Date.digit_val (Date.digit_char n) = Some n.
Proof.
  intros H.
  assert (Hn : exists k : nat, (k < 10)%nat /\ n = Z.of_nat k).
  { exists (Z.to_nat n). lia. }
  destruct Hn as (k & Hk & ->).
  do 10 (destruct k as [| k]; [reflexivity |]).
  lia.
Qed.

Lemma decimal_digit_char (n : Z) (rest : string) :
  0 <= n <= 9 ->
  Date.decimal (String (Date.digit_char n) rest) = Some (n, rest).
Proof.
  intros H.
  assert (Hn : exists k : nat, (k < 10)%nat /\ n = Z.of_nat k).
  { exists (Z.to_nat n). lia. }
  destruct Hn as (k & Hk & ->).
  do 10 (destruct k as [| k]; [reflexivity |]).
  lia.
Qed.

Lemma parse_Y_pad4 (y : Z) (rest : string) :
  0 <= y <= 9999 ->
  Date.parse_Y (Date.pad4 y ++ rest)%string = Some (y, rest).
Proof.
  intros H. unfold Date.pad4, Date.parse_Y.
  change (String (Date.digit_char (y / 1000))
            (String (Date.digit_char (y / 100 mod 10))
               (String (Date.digit_char (y / 10 mod 10))
                  (String (Date.digit_char (y mod 10)) EmptyString)))
          ++ rest)%string
    with (String (Date.digit_char (y / 1000))
            (String (Date.digit_char (y / 100 mod 10))
               (String (Date.digit_char (y / 10 mod 10))
                  (String (Date.digit_char (y mod 10)) rest)))).
  rewrite !decimal_digit_char by (Z.to_euclidean_division_equations; lia).
  do 2 f_equal. Z.to_euclidean_division_equations; lia.
Qed.

Lemma parse_m_pad2 (m : Z) (rest : string) :
  1 <= m <= 12 ->
  Date.parse_m (Date.pad2 m ++ String "-" rest)%string
  = Some (m, String "-" rest).
Proof.
  intros H.
  assert (Hm : exists k : nat, (k < 12)%nat /\ m = 1 + Z.of_nat k).
  { exists (Z.to_nat (m - 1)). lia. }
  destruct Hm as (k & Hk & ->).
  do 12 (destruct k as [| k]; [reflexivity |]).
  lia.
Qed.

Lemma parse_d_pad2 (d : Z) :
  1 <= d <= 31 -> Date.parse_d (Date.pad2 d) = Some (d, EmptyString).
Proof.
  intros H.
  assert (Hd : exists k : nat, (k < 31)%nat /\ d = 1 + Z.of_nat k).
  { exists (Z.to_nat (d - 1)). lia. }
  destruct Hd as (k & Hk & ->).
  do 31 (destruct k as [| k]; [reflexivity |]).
  lia.
Qed.

Lemma days_in_month_le (y m : Z) : Date.days_in_month y m <= 31.
Proof.
  unfold Date.days_in_month.
  repeat match goal with |- context [if ?c then _ else _] => destruct c end;
    lia.
Qed.

(** Every date prints to a text that [strptime] reads back as the same
    date. *)
Lemma strptime_str (d : Date.date) :
  Date.valid d = true -> Date.strptime (Date.str d) = Some d.
Proof.
  destruct d as [y m d]. unfold Date.valid. simpl. intros H.
  assert (Hr : (0 <= y <= 9999) /\ (1 <= m <= 12) /\
               (1 <= d <= Date.days_in_month y m)).
  { rewrite !andb_true_iff in H. rewrite !Z.leb_le in H. lia. }
  destruct Hr as (Hy & Hm & Hd).
  pose proof (days_in_month_le y m) as Hle.
  unfold Date.strptime, Date.str. simpl Date.year. simpl Date.month.
  simpl Date.day.
  rewrite parse_Y_pad4 by assumption.
  change ("-" ++ Date.pad2 m ++ "-" ++ Date.pad2 d)%string
    with (String "-" (Date.pad2 m ++ String "-" (Date.pad2 d)))%string.
  cbn [Date.expect_dash]. change (Ascii.eqb "-" "-") with true. cbv iota.
  rewrite parse_m_pad2 by assumption.
  cbn [Date.expect_dash]. change (Ascii.eqb "-" "-") with true. cbv iota.
  rewrite parse_d_pad2 by lia.
  unfold Date.make, Date.valid. simpl. rewrite H. reflexivity.
Qed.

(** What [strptime] returns is a date in range. *)
Lemma strptime_valid (s : string) (d : Date.date) :
  Date.strptime s = Some d -> Date.valid d = true.
Proof.
  unfold Date.strptime, Date.make. intros H.
  repeat match type of H with
    | match ?x with _ => _ end = _ => destruct x eqn:?; try discriminate
    | (if ?x then _ else _) = _ => destruct x eqn:?; try discriminate
    | (let r := _ in _) = _ => cbv zeta in H
    end.
  inversion H; subst. assumption.
Qed.


(** ** Facts about the containers *)

Lemma pop_app {A : Type} (l : list A) (a : A) : Py.pop (l ++ [a]) = Some (l, a).
Proof.
  induction l as [| x l IH]; simpl; [reflexivity |].
  rewrite IH. reflexivity.
Qed.

Lemma pop_Some {A : Type} (l r : list A) (a : A) :
  Py.pop l = Some (r, a) -> l = r ++ [a].
Proof.
  revert r. induction l as [| x l IH]; simpl; intros r H; [discriminate |].
  destruct (Py.pop l) as [[r' y] |] eqn:E.
  - inversion H; subst. simpl. f_equal. apply IH. reflexivity.
  - inversion H; subst. destruct l; [reflexivity |].
    simpl in E. destruct (Py.pop l) as [[? ?] |]; discriminate.
Qed.

Lemma pop_None {A : Type} (l : list A) : Py.pop l = None -> l = [].
Proof.
  destruct l as [| x l]; [reflexivity |]. simpl.
  destruct (Py.pop l) as [[? ?] |]; discriminate.
Qed.

Section SortFacts.
Context {A K : Type} (key : A -> K) (ltb : K -> K -> bool).
Hypothesis ltb_asym : forall a b, ltb a b = true -> ltb b a = false.

Lemma insert_sorted (x : A) (l : list A) :
  Py.is_sorted key ltb l = true ->
  Py.is_sorted key ltb (Py.insert key ltb x l) = true.
Proof using ltb_asym.
  induction l as [| y l IH]; intros Hs; [reflexivity |].
  simpl Py.insert. destruct (ltb (key y) (key x)) eqn:E.
  - assert (Hl : Py.is_sorted key ltb l = true).
    { simpl in Hs. destruct l; [reflexivity |].
      apply andb_true_iff in Hs. apply Hs. }
    specialize (IH Hl).
    destruct l as [| z l].
    + simpl. rewrite (ltb_asym _ _ E). reflexivity.
    + simpl in Hs. apply andb_true_iff in Hs. destruct Hs as [Hyz _].
      simpl Py.insert in *.
      destruct (ltb (key z) (key x)).
      * change (negb (ltb (key z) (key y)) &&
                Py.is_sorted key ltb (z :: Py.insert key ltb x l) = true).
        rewrite Hyz, IH. reflexivity.
      * change (negb (ltb (key x) (key y)) &&
                Py.is_sorted key ltb (x :: z :: l) = true).
        rewrite (ltb_asym _ _ E), IH. reflexivity.
  - change (negb (ltb (key y) (key x)) &&
            Py.is_sorted key ltb (y :: l) = true).
    rewrite E, Hs. reflexivity.
Qed.

Lemma sorted_is_sorted (l : list A) :
  Py.is_sorted key ltb (Py.sorted key ltb l) = true.
Proof using ltb_asym.
  induction l as [| x l IH]; [reflexivity |].
  simpl. apply insert_sorted, IH.
Qed.

Lemma insert_Permutation (x : A) (l : list A) :
  Permutation (Py.insert key ltb x l) (x :: l).
Proof using Type.
  induction l as [| y l IH]; simpl; [reflexivity |].
  destruct (ltb (key y) (key x)); [| reflexivity].
  rewrite IH. apply perm_swap.
Qed.

Lemma sorted_Permutation (l : list A) : Permutation (Py.sorted key ltb l) l.
Proof using Type.
  induction l as [| x l IH]; simpl; [reflexivity |].
  rewrite insert_Permutation, IH. reflexivity.
Qed.

(** Stability: the elements picked by a test that never holds for two
    elements in strict order keep their relative order. *)
Lemma insert_filter (p : A -> bool) (x : A) (l : list A) :
  (forall y, ltb (key y) (key x) = true -> p x = true -> p y = false) ->
  List.filter p (Py.insert key ltb x l) = List.filter p (x :: l).
Proof using Type.
  intros Hp. induction l as [| y l IH]; [reflexivity |].
  simpl Py.insert. destruct (ltb (key y) (key x)) eqn:E; [| reflexivity].
  simpl. simpl in IH. rewrite IH.
  pose proof (Hp y E) as Hy.
  destruct (p x); [| reflexivity].
  rewrite Hy; reflexivity.
Qed.

Lemma sorted_filter (p : A -> bool) (l : list A) :
  (forall x y, ltb (key y) (key x) = true -> p x = true -> p y = false) ->
  List.filter p (Py.sorted key ltb l) = List.filter p l.
Proof using Type.
  intros Hp. induction l as [| x l IH]; [reflexivity |].
  simpl Py.sorted. rewrite insert_filter by (apply Hp).
  simpl. rewrite IH. reflexivity.
Qed.

Lemma length_sorted (l : list A) : length (Py.sorted key ltb l) = length l.
Proof using Type. apply Permutation_length, sorted_Permutation. Qed.

(** A list that is in order is left as it is. *)
Lemma sorted_of_sorted (l : list A) :
  Py.is_sorted key ltb l = true -> Py.sorted key ltb l = l.
Proof using Type.
  induction l as [| x l IH]; [reflexivity |]. intros Hs. simpl Py.sorted.
  destruct l as [| y l]; [reflexivity |].
  simpl Py.is_sorted in Hs. apply andb_true_iff in Hs.
  destruct Hs as [Hxy Hl]. apply negb_true_iff in Hxy.
  rewrite IH by exact Hl. simpl. rewrite Hxy. reflexivity.
Qed.

Lemma is_sorted_app_l (l : list A) (x : A) :
  Py.is_sorted key ltb (l ++ [x]) = true -> Py.is_sorted key ltb l = true.
Proof using Type.
  induction l as [| y l IH]; [reflexivity |].
  destruct l as [| z l]; [reflexivity |].
  intros Hs. change ((y :: z :: l) ++ [x]) with (y :: z :: (l ++ [x])) in Hs.
  simpl Py.is_sorted in Hs. apply andb_true_iff in Hs.
  destruct Hs as [Hyz Hl].
  change (negb (ltb (key z) (key y)) && Py.is_sorted key ltb (z :: l) = true).
  rewrite Hyz. apply IH. exact Hl.
Qed.
End SortFacts.

Section DictFacts.
Context {V : Type}.
Implicit Types (d : Py.dict V) (k : string) (v : V).

Lemma get_In k v d : Py.get k d = Some v -> In (k, v) d.
Proof.
  induction d as [| [k' v'] d IH]; simpl; [discriminate |].
  destruct (String.eqb_spec k k') as [-> | Hne]; intros H.
  - inversion H; subst. left. reflexivity.
  - right. apply IH, H.
Qed.

Lemma mem_keys k d : Py.mem k d = true <-> In k (Py.keys d).
Proof.
  unfold Py.mem. induction d as [| [k' v'] d IH]; simpl.
  - split; [discriminate | tauto].
  - destruct (String.eqb_spec k k') as [-> | Hne].
    + split; auto.
    + rewrite IH. split; [auto | intros [H | H]; [congruence | exact H]].
Qed.

Lemma mem_false_keys k d : Py.mem k d = false <-> ~ In k (Py.keys d).
Proof.
  rewrite <- mem_keys. destruct (Py.mem k d); split; congruence.
Qed.

Lemma mem_get k d : Py.mem k d = true <-> exists v, Py.get k d = Some v.
Proof.
  unfold Py.mem. destruct (Py.get k d) as [v |]; split.
  - eauto.
  - reflexivity.
  - discriminate.
  - intros [v H]. discriminate.
Qed.

Lemma get_None_mem k d : Py.get k d = None <-> Py.mem k d = false.
Proof. unfold Py.mem. destruct (Py.get k d); split; congruence. Qed.

Lemma set_new k v d : Py.mem k d = false -> Py.set k v d = d ++ [(k, v)].
Proof.
  unfold Py.mem. induction d as [| [k' v'] d IH]; simpl; [reflexivity |].
  destruct (String.eqb_spec k k') as [-> | Hne]; [discriminate |].
  intros H. rewrite IH by exact H. reflexivity.
Qed.

Lemma get_set_eq k v d : Py.get k (Py.set k v d) = Some v.
Proof.
  induction d as [| [k' v'] d IH]; simpl.
  - rewrite String.eqb_refl. reflexivity.
  - destruct (String.eqb_spec k k') as [-> | Hne]; simpl.
    + rewrite String.eqb_refl. reflexivity.
    + destruct (String.eqb_spec k k'); [contradiction | exact IH].
Qed.

Lemma get_set_ne k k' v d :
  k <> k' -> Py.get k (Py.set k' v d) = Py.get k d.
Proof.
  intros Hne. induction d as [| [k2 v2] d IH]; simpl.
  - destruct (String.eqb_spec k k'); [contradiction | reflexivity].
  - destruct (String.eqb_spec k' k2) as [-> | Hne2]; simpl.
    + destruct (String.eqb_spec k k2); [contradiction | reflexivity].
    + rewrite IH. reflexivity.
Qed.

Lemma get_alter_eq (f : V -> V) k d :
  Py.get k (Py.alter f k d) = option_map f (Py.get k d).
Proof.
  induction d as [| [k' v'] d IH]; simpl; [reflexivity |].
  destruct (String.eqb_spec k k') as [-> | Hne]; simpl.
  - rewrite String.eqb_refl. reflexivity.
  - destruct (String.eqb_spec k k'); [contradiction | exact IH].
Qed.

Lemma get_alter_ne (f : V -> V) k k' d :
  k <> k' -> Py.get k (Py.alter f k' d) = Py.get k d.
Proof.
  intros Hne. induction d as [| [k2 v2] d IH]; simpl; [reflexivity |].
  destruct (String.eqb_spec k' k2) as [-> | Hne2]; simpl.
  - destruct (String.eqb_spec k k2); [contradiction | reflexivity].
  - rewrite IH. reflexivity.
Qed.

Lemma keys_alter (f : V -> V) k d : Py.keys (Py.alter f k d) = Py.keys d.
Proof.
  unfold Py.keys. induction d as [| [k' v'] d IH]; simpl; [reflexivity |].
  destruct (String.eqb k k'); simpl; [reflexivity |].
  rewrite IH. reflexivity.
Qed.

Lemma keys_set_new k v d :
  Py.mem k d = false -> Py.keys (Py.set k v d) = Py.keys d ++ [k].
Proof.
  intros H. rewrite set_new by exact H. unfold Py.keys.
  rewrite map_app. reflexivity.
Qed.

(** Deleting the key that was inserted last. *)
Lemma keys_del_last k d (l : list string) :
  Py.keys d = l ++ [k] -> ~ In k l -> Py.keys (Py.del k d) = l.
Proof.
  unfold Py.keys. revert l.
  induction d as [| [k' v'] d IH]; simpl; intros l Hk Hn.
  - destruct l; discriminate.
  - destruct l as [| x l]; simpl in Hk.
    + inversion Hk as [[H1 H2]]. rewrite String.eqb_refl.
      destruct d; [reflexivity | discriminate].
    + inversion Hk as [[H1 H2]]. subst x.
      destruct (String.eqb_spec k k') as [-> | Hne].
      * exfalso. apply Hn. left. reflexivity.
      * simpl. f_equal. apply IH; [exact H2 |].
        intros Hin. apply Hn. right. exact Hin.
Qed.

Lemma In_del (e : string * V) k d : In e (Py.del k d) -> In e d.
Proof.
  induction d as [| [k' v'] d IH]; simpl; [tauto |].
  destruct (String.eqb k k'); simpl; [tauto |].
  intros [H | H]; [left; exact H | right; apply IH, H].
Qed.

(** An entry other than the one found under [k] survives [del]. *)
Lemma In_del_other (e : string * V) k v d :
  Py.get k d = Some v -> In e d -> e <> (k, v) -> In e (Py.del k d).
Proof.
  induction d as [| [k' v'] d IH]; simpl; [tauto |].
  destruct (String.eqb_spec k k') as [-> | Hne]; intros Hg Hin Hd.
  - inversion Hg; subst. destruct Hin as [H | H]; [congruence | exact H].
  - destruct Hin as [H | H]; [left; exact H | right].
    apply IH; assumption.
Qed.

Lemma Forall_del (P : string * V -> Prop) k d :
  Forall P d -> Forall P (Py.del k d).
Proof.
  intros H. apply List.Forall_forall. intros e He.
  apply In_del in He. rewrite List.Forall_forall in H. apply H, He.
Qed.

Lemma Forall_alter (P : V -> Prop) (f : V -> V) k d :
  (forall v, P v -> P (f v)) ->
  Forall (fun e => P (snd e)) d ->
  Forall (fun e => P (snd e)) (Py.alter f k d).
Proof.
  intros Hf. induction d as [| [k' v'] d IH]; simpl; intros H.
  - constructor.
  - inversion H as [| ? ? H1 H2]; subst.
    destruct (String.eqb k k'); constructor; simpl in *; auto.
Qed.

Lemma Forall_set (P : V -> Prop) k v d :
  P v ->
  Forall (fun e => P (snd e)) d ->
  Forall (fun e => P (snd e)) (Py.set k v d).
Proof.
  intros Hv. induction d as [| [k' v'] d IH]; simpl; intros H.
  - constructor; [exact Hv | constructor].
  - inversion H as [| ? ? H1 H2]; subst.
    destruct (String.eqb k k'); constructor; simpl in *; auto.
Qed.
End DictFacts.

(** ** Facts about one item *)

Section ItemFacts.
Context {float : Type}.
Implicit Types (it : Item float) (q : list batch) (today : Date.date).

Lemma batch_total_app q1 q2 :
  batch_total (q1 ++ q2) = batch_total q1 + batch_total q2.
Proof.
  induction q1 as [| b q1 IH]; simpl; [reflexivity |].
  rewrite IH. lia.
Qed.

Lemma batch_total_insert (b : batch) q :
  batch_total (Py.insert fst Date.ltb b q) = snd b + batch_total q.
Proof.
  induction q as [| c q IH]; simpl; [reflexivity |].
  destruct (Date.ltb (fst c) (fst b)); simpl; [rewrite IH |]; lia.
Qed.

Lemma batch_total_sort_queue q : batch_total (sort_queue q) = batch_total q.
Proof.
  unfold sort_queue. induction q as [| b q IH]; simpl; [reflexivity |].
  rewrite batch_total_insert, IH. reflexivity.
Qed.

Lemma sort_queue_sorted q : queue_sorted (sort_queue q) = true.
Proof. apply sorted_is_sorted. exact date_ltb_asym. Qed.

Lemma sort_queue_stable (d : Date.date) q :
  List.filter (expiring_on d) (sort_queue q) = List.filter (expiring_on d) q.
Proof.
  apply sorted_filter. intros x y Hlt Hx.
  unfold expiring_on in *. apply date_eqb_eq in Hx. subst d.
  destruct (Date.eqb (fst y) (fst x)) eqn:E; [| reflexivity].
  apply date_eqb_ltb in E. congruence.
Qed.

Lemma sort_queue_In (b : batch) q : In b (sort_queue q) <-> In b q.
Proof.
  split; apply Permutation_in;
    [| symmetry]; apply sorted_Permutation.
Qed.

Lemma queue_sorted_tail (b : batch) q :
  queue_sorted (b :: q) = true -> queue_sorted q = true.
Proof.
  unfold queue_sorted. simpl. destruct q; [reflexivity |].
  intros H. apply andb_true_iff in H. apply H.
Qed.

(** In a sorted queue nothing behind a live batch has expired. *)
Lemma sorted_none_expired today (b : batch) q :
  queue_sorted (b :: q) = true ->
  expired today b = false ->
  Forall (fun c => expired today c = false) q.
Proof.
  revert b. induction q as [| c q IH]; intros b Hs Hb; constructor.
  - unfold queue_sorted in Hs. simpl in Hs.
    apply andb_true_iff in Hs. destruct Hs as [Hbc _].
    apply negb_true_iff in Hbc. unfold expired in *.
    eapply date_leb_trans; eassumption.
  - apply (IH c).
    + apply queue_sorted_tail in Hs. exact Hs.
    + unfold queue_sorted in Hs. simpl in Hs.
      apply andb_true_iff in Hs. destruct Hs as [Hbc _].
      apply negb_true_iff in Hbc. unfold expired in *.
      eapply date_leb_trans; eassumption.
Qed.

Lemma filter_none (p : batch -> bool) q :
  Forall (fun c => p c = false) q ->
  List.filter p q = [] /\ List.filter (fun c => negb (p c)) q = q.
Proof.
  induction 1 as [| c q Hc _ [IH1 IH2]]; simpl; [auto |].
  rewrite Hc. simpl. rewrite IH1, IH2. auto.
Qed.

(** On a sorted queue the loop removes the expired batches and only
    them. *)
Lemma drain_sorted today q (qty removed : Z) :
  queue_sorted q = true ->
  drain today q qty removed =
  (List.filter (fun b => negb (expired today b)) q,
   qty - batch_total (List.filter (expired today) q),
   removed + batch_total (List.filter (expired today) q)).
Proof.
  revert qty removed.
  induction q as [| [d n] q IH]; intros qty removed Hs; simpl.
  - f_equal; [f_equal |]; lia.
  - change (Date.ltb d today) with (expired today (d, n)).
    destruct (expired today (d, n)) eqn:E; simpl.
    + rewrite IH by (eapply queue_sorted_tail; eassumption).
      f_equal; [f_equal |]; lia.
    + pose proof (sorted_none_expired today (d, n) q Hs E) as Hq.
      apply filter_none in Hq. destruct Hq as [H1 H2].
      rewrite H1, H2. simpl. f_equal; [f_equal |]; lia.
Qed.

Lemma add_stocks_snoc it (calls : list (Z * Date.date)) (c : Z * Date.date) :
  add_stocks it (calls ++ [c]) = add_stock (add_stocks it calls) (fst c) (snd c).
Proof. unfold add_stocks. rewrite fold_left_app. reflexivity. Qed.

Lemma add_stocks_sorted it (calls : list (Z * Date.date)) :
  queue_sorted (expiry_queue it) = true ->
  queue_sorted (expiry_queue (add_stocks it calls)) = true.
Proof.
  intros H. induction calls as [| c calls IH] using rev_ind; [exact H |].
  rewrite add_stocks_snoc. simpl. apply sort_queue_sorted.
Qed.

Lemma add_stocks_stable it (calls : list (Z * Date.date)) (d : Date.date) :
  List.filter (expiring_on d) (expiry_queue (add_stocks it calls)) =
  List.filter (expiring_on d) (expiry_queue it ++ map batch_of calls).
Proof.
  induction calls as [| c calls IH] using rev_ind.
  - simpl. rewrite app_nil_r. reflexivity.
  - rewrite add_stocks_snoc. simpl. rewrite sort_queue_stable.
    rewrite map_app, app_assoc, (List.filter_app _ (_ ++ _)), <- IH.
    rewrite List.filter_app. reflexivity.
Qed.

Lemma add_stocks_Permutation it (calls : list (Z * Date.date)) :
  Permutation (expiry_queue (add_stocks it calls))
    (expiry_queue it ++ map batch_of calls).
Proof.
  induction calls as [| c calls IH] using rev_ind.
  - simpl. rewrite app_nil_r. reflexivity.
  - rewrite add_stocks_snoc. simpl expiry_queue. unfold sort_queue.
    rewrite sorted_Permutation, map_app, IH, app_assoc. reflexivity.
Qed.

Lemma add_stocks_quantity it (calls : list (Z * Date.date)) :
  quantity (add_stocks it calls) =
  quantity it + batch_total (map batch_of calls).
Proof.
  induction calls as [| c calls IH] using rev_ind.
  - simpl. lia.
  - rewrite add_stocks_snoc. simpl. rewrite IH, map_app, batch_total_app.
    simpl. lia.
Qed.
End ItemFacts.

(** ** Eviction and restocking of one item *)

(** C3.  On an item whose queue is in expiry order (as [add_stock] keeps
    it), [Item.remove_expired] run on the day [today] removes exactly the
    batches whose expiry date is strictly before [today]: the queue that
    remains is the old queue without them, in the old order, so a batch
    that expires on [today] itself stays.  The value returned is the sum
    of the quantities removed, which is 0 when nothing has expired, and
    the item's quantity goes down by the value returned. *)
Theorem remove_expired_exactly_the_expired {float : Type}
    (it : Item float) (today : Date.date) :
  queue_sorted (expiry_queue it) = true ->
  let removed := fst (Item_remove_expired it today) in
  let it' := snd (Item_remove_expired it today) in
  expiry_queue it' =
    List.filter (fun b => negb (Date.ltb (fst b) today)) (expiry_queue it) /\
  (forall b, In b (expiry_queue it') <->
             In b (expiry_queue it) /\ Date.ltb (fst b) today = false) /\
  (forall n, In (today, n) (expiry_queue it) -> In (today, n) (expiry_queue it')) /\
  removed =
    batch_total (List.filter (fun b => Date.ltb (fst b) today) (expiry_queue it)) /\
  (Forall (fun b => Date.ltb (fst b) today = false) (expiry_queue it) ->
   removed = 0) /\
  quantity it' = quantity it - removed /\
  name it' = name it /\ category it' = category it /\
  price it' = price it /\ date_added it' = date_added it.
Proof.
  intros Hs. unfold Item_remove_expired.
  rewrite (drain_sorted today _ _ _ Hs). cbn zeta. simpl fst. simpl snd.
  simpl expiry_queue. simpl quantity. simpl name. simpl category.
  simpl price. simpl date_added.
  assert (Hin : forall b,
    In b (List.filter (fun b => negb (expired today b)) (expiry_queue it)) <->
    In b (expiry_queue it) /\ Date.ltb (fst b) today = false).
  { intros b. rewrite List.filter_In. unfold expired.
    rewrite negb_true_iff. reflexivity. }
  split; [reflexivity |].
  split; [exact Hin |].
  split; [intros n Hn; apply Hin; split; [exact Hn | apply date_ltb_irrefl] |].
  split; [reflexivity |].
  split.
  - intros Hall. apply (filter_none (expired today)) in Hall.
    destruct Hall as [Hnone _].
    change (0 + batch_total (List.filter (expired today) (expiry_queue it)) = 0).
    rewrite Hnone. reflexivity.
  - repeat split; reflexivity.
Qed.

(** C4.  After any sequence of [add_stock] calls on a new item, in
    whatever order the expiry dates come, the queue is in ascending
    expiry order, and for every date the batches that expire on it are
    the ones added with that date, in the order of the calls. *)
Theorem add_stock_keeps_expiry_order {float : Type}
    (n c : string) (p : float) (today : Date.date)
    (calls : list (Z * Date.date)) :
  let it := add_stocks (Item_init n c p today) calls in
  queue_sorted (expiry_queue it) = true /\
  (forall d,
     List.filter (expiring_on d) (expiry_queue it) =
     List.filter (expiring_on d) (map batch_of calls)) /\
  Permutation (expiry_queue it) (map batch_of calls).
Proof.
  cbn zeta. split; [| split].
  - apply add_stocks_sorted. reflexivity.
  - intros d. rewrite add_stocks_stable. reflexivity.
  - apply (add_stocks_Permutation (Item_init n c p today)).
Qed.

(** ** The operations of the registry *)

Section RegistryFacts.
Context {float : Type}.
Implicit Types (m : InventoryManager float) (it : Item float).
Implicit Types (today : Date.date) (n c : string).

(** What the loop of [Item.remove_expired] does on any queue: it takes
    a prefix of expired batches off the queue. *)
Lemma drain_prefix today (q : list batch) (qty removed : Z) :
  exists taken rest,
    q = taken ++ rest /\
    Forall (fun b => expired today b = true) taken /\
    drain today q qty removed =
    (rest, qty - batch_total taken, removed + batch_total taken).
Proof.
  revert qty removed. induction q as [| [d k] q IH]; intros qty removed.
  - exists [], []. simpl. repeat split; [constructor | f_equal; [f_equal |]; lia].
  - simpl. destruct (Date.ltb d today) eqn:E.
    + destruct (IH (qty - k) (removed + k)) as (taken & rest & Hq & Ht & Hd).
      exists ((d, k) :: taken), rest. rewrite Hd, Hq. simpl.
      repeat split; [constructor; assumption | f_equal; [f_equal |]; lia].
    + exists [], ((d, k) :: q). simpl.
      repeat split; [constructor | f_equal; [f_equal |]; lia].
Qed.

Lemma Item_remove_expired_fields it today :
  let it' := snd (Item_remove_expired it today) in
  name it' = name it /\ category it' = category it /\
  price it' = price it /\ date_added it' = date_added it.
Proof.
  unfold Item_remove_expired.
  destruct (drain today (expiry_queue it) (quantity it) 0) as [[q k] r].
  simpl. auto.
Qed.

Lemma Item_remove_expired_prefix it today :
  exists taken,
    expiry_queue it = taken ++ expiry_queue (snd (Item_remove_expired it today)) /\
    fst (Item_remove_expired it today) = batch_total taken /\
    quantity (snd (Item_remove_expired it today)) = quantity it - batch_total taken.
Proof.
  unfold Item_remove_expired.
  destruct (drain_prefix today (expiry_queue it) (quantity it) 0)
    as (taken & rest & Hq & _ & Hd).
  rewrite Hd. simpl. exists taken. auto.
Qed.

Lemma batch_total_positive (q : list batch) :
  Forall (fun b => 0 < snd b) q -> 0 <= batch_total q.
Proof. induction 1; simpl; lia. Qed.

Lemma Item_remove_expired_nonneg it today :
  Forall (fun b => 0 < snd b) (expiry_queue it) ->
  0 <= fst (Item_remove_expired it today).
Proof.
  intros Hp.
  destruct (Item_remove_expired_prefix it today) as (taken & Hq & Hr & _).
  rewrite Hr. apply batch_total_positive.
  rewrite Hq in Hp. apply Forall_app in Hp. apply Hp.
Qed.

Lemma remove_expired_loop_items today (its : Py.dict (Item float)) :
  snd (remove_expired_loop today its) =
  map (fun e => (fst e, snd (Item_remove_expired (snd e) today))) its.
Proof.
  induction its as [| [k it] its IH]; [reflexivity |].
  simpl. destruct (Item_remove_expired it today) as [removed it'].
  destruct (remove_expired_loop today its) as [results rest].
  simpl in *. rewrite IH. reflexivity.
Qed.

Lemma remove_expired_loop_results today (its : Py.dict (Item float)) :
  fst (remove_expired_loop today its) =
  map (fun x => removed_message (snd x) (fst x))
    (List.filter (fun x => negb (snd x =? 0)) (evictions today its)).
Proof.
  induction its as [| [k it] its IH]; [reflexivity |].
  simpl. pose proof (Item_remove_expired_fields it today) as (Hn & _).
  destruct (Item_remove_expired it today) as [removed it'].
  destruct (remove_expired_loop today its) as [results rest].
  simpl in *. rewrite IH, Hn.
  destruct (removed =? 0); reflexivity.
Qed.

Lemma evictions_nonneg today (its : Py.dict (Item float)) :
  positive_batches its ->
  Forall (fun x => 0 <= snd x) (evictions today its).
Proof.
  induction 1 as [| [k it] its Hit _ IH]; simpl; constructor; [| exact IH].
  simpl. apply Item_remove_expired_nonneg, Hit.
Qed.

Lemma filter_nonzero_positive (l : list (string * Z)) :
  Forall (fun x => 0 <= snd x) l ->
  List.filter (fun x => negb (snd x =? 0)) l =
  List.filter (fun x => 0 <? snd x) l.
Proof.
  induction 1 as [| x l Hx _ IH]; [reflexivity |].
  simpl. rewrite IH.
  destruct (Z.eqb_spec (snd x) 0), (Z.ltb_spec 0 (snd x));
    simpl; try reflexivity; lia.
Qed.
End RegistryFacts.

(** C5, as the program has it.  [InventoryManager.remove_expired] runs
    [Item.remove_expired] on every item and reports one message for each
    item whose evicted quantity is not zero, in the order of the [items]
    dictionary (the order in which the items were added); it leaves the
    undo stack and the category set as they were.  When every batch has
    a positive quantity, the items reported are the ones with a positive
    evicted quantity. *)
Theorem remove_expired_reports_in_insertion_order {float : Type}
    (m : InventoryManager float) (today : Date.date) :
  let r := remove_expired m today in
  fst r =
    map (fun x => removed_message (snd x) (fst x))
      (List.filter (fun x => negb (snd x =? 0)) (evictions today (items m))) /\
  items (snd r) =
    map (fun e => (fst e, snd (Item_remove_expired (snd e) today))) (items m) /\
  action_stack (snd r) = action_stack m /\
  categories (snd r) = categories m /\
  (positive_batches (items m) ->
   fst r =
     map (fun x => removed_message (snd x) (fst x))
       (List.filter (fun x => 0 <? snd x) (evictions today (items m)))).
Proof.
  cbn zeta. unfold remove_expired.
  pose proof (remove_expired_loop_results today (items m)) as Hr.
  pose proof (remove_expired_loop_items today (items m)) as Hi.
  destruct (remove_expired_loop today (items m)) as [results its].
  simpl in *. subst results its.
  repeat split.
  intros Hp. rewrite filter_nonzero_positive; [reflexivity |].
  apply evictions_nonneg, Hp.
Qed.

(** C9.  [add_item] on a name that the registry already has returns
    [False] and changes nothing.  On a new name it returns [True], puts
    a new item with quantity 0 and an empty queue at the end of [items],
    adds the category to the category set and pushes the record
    [('delete_item', name)]. *)
Theorem add_item_new_or_refused {float : Type}
    (m : InventoryManager float) (n c : string) (p : float)
    (today : Date.date) :
  (Py.mem n (items m) = true -> add_item m n c p today = (false, m)) /\
  (Py.mem n (items m) = false ->
   let r := add_item m n c p today in
   let it := {| name := n; category := c; price := p; quantity := 0;
                expiry_queue := []; date_added := today |} in
   fst r = true /\
   items (snd r) = items m ++ [(n, it)] /\
   Py.get n (items (snd r)) = Some it /\
   (forall k, k <> n -> Py.get k (items (snd r)) = Py.get k (items m)) /\
   categories (snd r) = categories m ∪ {[ c ]} /\
   action_stack (snd r) = action_stack m ++ [delete_item n]).
Proof.
  unfold add_item. split; intros H; rewrite H; simpl; [reflexivity |].
  repeat split.
  - apply set_new, H.
  - apply get_set_eq.
  - intros k Hk. apply get_set_ne, Hk.
Qed.

(** C8, as the program has it.  [update_quantity] returns [False] and
    changes nothing when the name is not in the registry or when the
    text of the expiry date is refused by [strptime] with the format
    [%Y-%m-%d].  Otherwise it returns [True]: the item gets the quantity
    and the batch, the other items, the order of [items] and the
    category set stay as they were, and the record
    [('update_quantity', name, -quantity)] is pushed.  Every text in the
    ISO form [YYYY-MM-DD] is accepted for an item of the registry; the
    format also accepts texts that are not in that form. *)
Theorem update_quantity_adds_or_refuses {float : Type}
    (m : InventoryManager float) (n : string) (qty : Z)
    (expiry_date : string) :
  (Py.mem n (items m) = false ->
   update_quantity m n qty expiry_date = (false, m)) /\
  (Date.strptime expiry_date = None ->
   update_quantity m n qty expiry_date = (false, m)) /\
  (forall it d,
     Py.get n (items m) = Some it ->
     Date.strptime expiry_date = Some d ->
     let r := update_quantity m n qty expiry_date in
     fst r = true /\
     Py.get n (items (snd r)) = Some (add_stock it qty d) /\
     quantity (add_stock it qty d) = quantity it + qty /\
     Permutation (expiry_queue (add_stock it qty d))
       (expiry_queue it ++ [(d, qty)]) /\
     (forall k, k <> n -> Py.get k (items (snd r)) = Py.get k (items m)) /\
     Py.keys (items (snd r)) = Py.keys (items m) /\
     categories (snd r) = categories m /\
     action_stack (snd r) = action_stack m ++ [update_quantity_by n (- qty)]) /\
  (forall it,
     Py.get n (items m) = Some it ->
     Date.iso expiry_date ->
     fst (update_quantity m n qty expiry_date) = true /\
     exists d, Date.strptime expiry_date = Some d /\
               Date.str d = expiry_date).
Proof.
  unfold update_quantity. split; [| split; [| split]].
  - intros H. rewrite H. reflexivity.
  - intros H. rewrite H. destruct (Py.mem n (items m)); reflexivity.
  - intros it d Hit Hd.
    assert (Hm : Py.mem n (items m) = true) by (apply mem_get; eauto).
    rewrite Hm, Hd. simpl.
    repeat split.
    + rewrite get_alter_eq, Hit. reflexivity.
    + apply sorted_Permutation.
    + intros k Hk. apply get_alter_ne, Hk.
    + apply keys_alter.
  - intros it Hit (d & Hv & Hs).
    assert (Hm : Py.mem n (items m) = true) by (apply mem_get; eauto).
    pose proof (strptime_str d Hv) as Hp. rewrite Hs in Hp.
    rewrite Hm, Hp. split; [reflexivity |]. exists d. auto.
Qed.

(** C2.  When the record on top of the undo stack is
    [('update_quantity', name, delta)] and the item is in the registry,
    [undo_last_action] adds [delta] to the quantity of that item and to
    nothing else: its queue and its other fields, the other items, the
    order of [items] and the category set stay as they were.  The record
    is gone from the stack. *)
Theorem undo_update_quantity_only_moves_the_total {float : Type}
    (m : InventoryManager float) (stack : list action) (n : string)
    (delta : Z) (it : Item float) :
  Py.pop (action_stack m) = Some (stack, update_quantity_by n delta) ->
  Py.get n (items m) = Some it ->
  let r := undo_last_action m in
  fst r = Ok ("Undid: Quantity adjustment for '" ++ n ++ "'")%string /\
  (exists it',
     Py.get n (items (snd r)) = Some it' /\
     quantity it' = quantity it + delta /\
     expiry_queue it' = expiry_queue it /\
     name it' = name it /\ category it' = category it /\
     price it' = price it /\ date_added it' = date_added it) /\
  (forall k, k <> n -> Py.get k (items (snd r)) = Py.get k (items m)) /\
  Py.keys (items (snd r)) = Py.keys (items m) /\
  categories (snd r) = categories m /\
  action_stack (snd r) = stack.
Proof.
  intros Hpop Hit. unfold undo_last_action. rewrite Hpop, Hit. simpl.
  split; [reflexivity |]. split; [| split; [| split]].
  - eexists. rewrite get_alter_eq, Hit. simpl.
    split; [reflexivity |]. simpl. auto 10.
  - intros k Hk. apply get_alter_ne, Hk.
  - apply keys_alter.
  - auto.
Qed.

(** ** The report *)

Section ReportLoop.
Context {float : Type}.
Variable int_mul_float : Z -> float -> float.
Variable format_2f : float -> string.
Implicit Types (it : Item float) (d : Py.dict (Item float)).

Lemma report_row_result (n : string) it :
  report_row int_mul_float format_2f n it =
  if overflows it then Raise OverflowError
  else Ok (row_of int_mul_float format_2f n it).
Proof.
  unfold report_row, int_times_float, overflows, row_of.
  destruct (Py.float_overflows (quantity it)); reflexivity.
Qed.

(** What the loop returns: it raises when an item that passes the
    filter has a quantity beyond the range of a float, and makes the
    rows of the items that pass the filter otherwise. *)
Lemma report_loop_result (f : option string) d :
  report_loop int_mul_float format_2f f d =
  if existsb (fun e => kept f (snd e) && overflows (snd e)) d
  then Raise OverflowError
  else Ok (map (fun e => row_of int_mul_float format_2f (fst e) (snd e))
             (List.filter (fun e => kept f (snd e)) d)).
Proof.
  induction d as [| [k it] d IH]; [reflexivity |].
  simpl. unfold kept at 1 3. simpl.
  destruct (truthy f && differs (category it) f); simpl; [exact IH |].
  rewrite report_row_result, IH.
  destruct (overflows it); simpl; [reflexivity |].
  destruct (existsb _ d); reflexivity.
Qed.

Lemma kept_unfiltered (f : option string) it :
  truthy f = false -> kept f it = true.
Proof. unfold kept. intros ->. reflexivity. Qed.

Lemma filter_all {A : Type} (p : A -> bool) (l : list A) :
  (forall x, p x = true) -> List.filter p l = l.
Proof.
  intros H. induction l as [| x l IH]; simpl; [reflexivity |].
  rewrite H, IH. reflexivity.
Qed.

Lemma existsb_Permutation {A : Type} (p : A -> bool) (l l' : list A) :
  Permutation l l' -> existsb p l = existsb p l'.
Proof.
  intros H.
  destruct (existsb p l) eqn:E; destruct (existsb p l') eqn:E';
    try reflexivity.
  - apply existsb_exists in E. destruct E as (x & Hin & Hx).
    assert (existsb p l' = true) as E''.
    { apply existsb_exists. exists x. split; [| exact Hx].
      eapply Permutation_in; eassumption. }
    congruence.
  - apply existsb_exists in E'. destruct E' as (x & Hin & Hx).
    assert (existsb p l = true) as E''.
    { apply existsb_exists. exists x. split; [| exact Hx].
      eapply Permutation_in; [symmetry |]; eassumption. }
    congruence.
Qed.

(** The unfiltered report in closed form. *)
Lemma report_unfiltered (f : option string) (m : InventoryManager float) :
  truthy f = false ->
  generate_report int_mul_float format_2f m f =
  if existsb (fun e => overflows (snd e)) (items m)
  then Raise OverflowError
  else Ok (map (fun e => row_of int_mul_float format_2f (fst e) (snd e))
             (Py.sorted fst String.ltb (items m))).
Proof.
  intros Hf. unfold generate_report. rewrite report_loop_result.
  rewrite (filter_all (fun e => kept f (snd e)))
    by (intros e; apply kept_unfiltered, Hf).
  assert (He : forall l : Py.dict (Item float),
             existsb (fun e => kept f (snd e) && overflows (snd e)) l =
             existsb (fun e => overflows (snd e)) l).
  { induction l as [| e l IH]; simpl; [reflexivity |].
    rewrite IH, (kept_unfiltered f (snd e) Hf). reflexivity. }
  rewrite He.
  rewrite (existsb_Permutation _ _ _
             (sorted_Permutation fst String.ltb (items m))).
  reflexivity.
Qed.
End ReportLoop.

(** C10, as the program has it.  [generate_report] with the empty
    string as filter does what it does with no filter, whatever the
    categories of the items are.  When the quantity of every item
    converts to a float, it returns one row for every item, in the
    order of the sorted names; and whenever it returns, that is what it
    returns.  When the quantity of some item is beyond the range of a
    float, it raises [OverflowError] and returns no row. *)
Theorem report_with_empty_filter_is_unfiltered {float : Type}
    (int_mul_float : Z -> float -> float) (format_2f : float -> string)
    (m : InventoryManager float) :
  generate_report int_mul_float format_2f m (Some "") =
  generate_report int_mul_float format_2f m None /\
  (Forall (fun e => overflows (snd e) = false) (items m) ->
   generate_report int_mul_float format_2f m (Some "") =
   Ok (map (fun e => row_of int_mul_float format_2f (fst e) (snd e))
         (Py.sorted fst String.ltb (items m)))) /\
  (forall rows,
     generate_report int_mul_float format_2f m (Some "") = Ok rows ->
     rows = map (fun e => row_of int_mul_float format_2f (fst e) (snd e))
              (Py.sorted fst String.ltb (items m)) /\
     length rows = length (items m)) /\
  (Exists (fun e => overflows (snd e) = true) (items m) ->
   generate_report int_mul_float format_2f m (Some "") = Raise OverflowError).
Proof.
  rewrite !report_unfiltered by reflexivity.
  split; [reflexivity |]. split; [| split].
  - intros Hall.
    assert (He : existsb (fun e => overflows (snd e)) (items m) = false).
    { induction Hall as [| e l He _ IH]; simpl; [reflexivity |].
      rewrite He, IH. reflexivity. }
    rewrite He. reflexivity.
  - intros rows Hr.
    destruct (existsb (fun e => overflows (snd e)) (items m));
      [discriminate |].
    inversion Hr; subst rows. split; [reflexivity |].
    rewrite length_map. apply length_sorted.
  - intros Hex.
    assert (He : existsb (fun e => overflows (snd e)) (items m) = true).
    { apply existsb_exists. apply List.Exists_exists in Hex.
      destruct Hex as (e & Hin & He). exists e. auto. }
    rewrite He. reflexivity.
Qed.

(** ** Invariants of the reachable states *)

Section Invariants.
Context {float : Type}.
Implicit Types (m : InventoryManager float) (it : Item float).
Implicit Types (o : op float) (s : list action).

Lemma created_app s1 s2 : created (s1 ++ s2) = created s1 ++ created s2.
Proof.
  induction s1 as [| [n | n delta] s1 IH]; simpl; [reflexivity | |];
    rewrite IH; reflexivity.
Qed.

Lemma stack_wf_snoc s (a : action) :
  stack_wf (s ++ [a]) ->
  stack_wf s /\
  match a with
  | delete_item n => ~ In n (created s)
  | update_quantity_by n _ => In n (created s)
  end.
Proof.
  intros H. inversion H as [Hnil | s' n Hs Hn Heq | s' n delta Hs Hn Heq].
  - destruct s; discriminate.
  - apply app_inj_tail in Heq. destruct Heq; subst. auto.
  - apply app_inj_tail in Heq. destruct Heq; subst. auto.
Qed.

Lemma stack_wf_NoDup s : stack_wf s -> NoDup (created s).
Proof.
  induction 1 as [| s n _ IH Hn | s n delta _ IH _].
  - constructor.
  - rewrite created_app. simpl. apply NoDup_app. repeat split.
    + exact IH.
    + intros x Hx Hx'. apply list_elem_of_In in Hx, Hx'.
      destruct Hx' as [<- | []]. contradiction.
    + apply NoDup_singleton.
  - rewrite created_app. simpl. rewrite app_nil_r. exact IH.
Qed.

Lemma top_pop m (a : action) :
  top m = Some a <-> exists stack, Py.pop (action_stack m) = Some (stack, a).
Proof.
  unfold top. destruct (Py.pop (action_stack m)) as [[stack b] |]; split.
  - intros H. inversion H; subst. eauto.
  - intros [stack' H]. inversion H; subst. reflexivity.
  - discriminate.
  - intros [stack' H]. discriminate.
Qed.

Lemma keys_remove_expired m today :
  Py.keys (items (snd (remove_expired m today))) = Py.keys (items m).
Proof.
  unfold remove_expired.
  pose proof (remove_expired_loop_items today (items m)) as Hi.
  destruct (remove_expired_loop today (items m)) as [results its].
  simpl in *. subst its. unfold Py.keys. rewrite map_map. reflexivity.
Qed.

Lemma stack_remove_expired m today :
  action_stack (snd (remove_expired m today)) = action_stack m.
Proof.
  unfold remove_expired.
  destruct (remove_expired_loop today (items m)) as [results its].
  reflexivity.
Qed.

(** On a well-formed state the item named by the popped record is in
    the registry, so [undo_last_action] returns. *)
Lemma undo_returns m :
  Py.keys (items m) = created (action_stack m) ->
  stack_wf (action_stack m) ->
  exists msg, fst (undo_last_action m) = Ok msg.
Proof.
  intros Hk Hw. unfold undo_last_action.
  destruct (Py.pop (action_stack m)) as [[stack a] |] eqn:Hp; [| eauto].
  apply pop_Some in Hp. rewrite Hp in Hk.
  rewrite created_app in Hk.
  assert (Hin : match a with
                | delete_item n | update_quantity_by n _ =>
                    Py.mem n (items m) = true
                end).
  { rewrite Hp in Hw. apply stack_wf_snoc in Hw. destruct Hw as [_ Ha].
    destruct a as [n | n delta]; apply mem_keys; rewrite Hk;
      apply in_or_app; simpl; auto. }
  destruct a as [n | n delta]; apply mem_get in Hin;
    destruct Hin as [v ->]; eauto.
Qed.

Lemma step_stack m o m' :
  Py.keys (items m) = created (action_stack m) ->
  stack_wf (action_stack m) ->
  apply_op m o = Some m' ->
  Py.keys (items m') = created (action_stack m') /\
  stack_wf (action_stack m').
Proof.
  intros Hk Hw Hstep. destruct o as [n c p today | n qty e | today |];
    simpl in Hstep.
  - inversion Hstep; subst m'; clear Hstep. unfold add_item.
    destruct (Py.mem n (items m)) eqn:Hm; simpl; [auto |].
    rewrite keys_set_new by exact Hm. rewrite created_app, Hk. simpl.
    split; [reflexivity |]. constructor; [exact Hw |].
    rewrite <- Hk. apply mem_false_keys, Hm.
  - inversion Hstep; subst m'; clear Hstep. unfold update_quantity.
    destruct (Py.mem n (items m)) eqn:Hm; simpl; [| auto].
    destruct (Date.strptime e); simpl; [| auto].
    rewrite keys_alter, created_app, Hk. simpl. rewrite app_nil_r.
    split; [reflexivity |]. constructor; [exact Hw |].
    rewrite <- Hk. apply mem_keys, Hm.
  - inversion Hstep; subst m'; clear Hstep.
    rewrite keys_remove_expired, stack_remove_expired. auto.
  - unfold undo_last_action in Hstep.
    destruct (Py.pop (action_stack m)) as [[stack a] |] eqn:Hp.
    + apply pop_Some in Hp. rewrite Hp in Hk, Hw.
      rewrite created_app in Hk. apply stack_wf_snoc in Hw.
      destruct Hw as [Hw Ha].
      destruct a as [n | n delta];
        destruct (Py.get n (items m)) as [item |]; try discriminate;
        inversion Hstep; subst m'; clear Hstep; simpl in *.
      * split; [| exact Hw]. apply keys_del_last; assumption.
      * rewrite keys_alter, Hk, app_nil_r. auto.
    + inversion Hstep; subst m'. auto.
Qed.

Lemma reachable_weaken (excluded : InventoryManager float -> op float -> bool) m :
  reachable_without excluded m -> reachable m.
Proof.
  induction 1 as [| m o m' _ IH _ Hstep]; [constructor |].
  eapply reach_step; [exact IH | reflexivity | exact Hstep].
Qed.

Lemma run_without_reachable
    (excluded : InventoryManager float -> op float -> bool)
    (ops : list (op float)) m m' :
  reachable_without excluded m ->
  run_without excluded m ops = Some m' ->
  reachable_without excluded m'.
Proof.
  revert m. induction ops as [| o ops IH]; simpl; intros m Hm Hrun.
  - inversion Hrun; subst. exact Hm.
  - destruct (excluded m o) eqn:Hex; [discriminate |].
    destruct (apply_op m o) as [m1 |] eqn:Hstep; [| discriminate].
    apply (IH m1); [| exact Hrun].
    eapply reach_step; eassumption.
Qed.

Lemma run_reachable (ops : list (op float)) m m' :
  reachable m -> run m ops = Some m' -> reachable m'.
Proof.
  revert m. induction ops as [| o ops IH]; simpl; intros m Hm Hrun.
  - inversion Hrun; subst. exact Hm.
  - destruct (apply_op m o) as [m1 |] eqn:Hstep; [| discriminate].
    apply (IH m1); [| exact Hrun].
    eapply reach_step; [exact Hm | reflexivity | exact Hstep].
Qed.

Lemma reachable_stack m :
  reachable m ->
  Py.keys (items m) = created (action_stack m) /\
  stack_wf (action_stack m).
Proof.
  induction 1 as [| m o m' _ [Hk Hw] _ Hstep].
  - split; [reflexivity | constructor].
  - eapply step_stack; eassumption.
Qed.

(** The names of the items of a reachable state are distinct. *)
Lemma reachable_NoDup m : reachable m -> NoDup (Py.keys (items m)).
Proof.
  intros H. apply reachable_stack in H. destruct H as [-> Hw].
  apply stack_wf_NoDup, Hw.
Qed.

(** In a reachable state every call returns: no exception escapes. *)
Lemma reachable_step_total m o :
  reachable m -> exists m', apply_op m o = Some m'.
Proof.
  intros H. destruct o; simpl; eauto.
  apply reachable_stack in H. destruct H as [Hk Hw].
  destruct (undo_returns m Hk Hw) as [msg Hmsg].
  destruct (undo_last_action m) as [[msg' | e] m']; simpl in Hmsg;
    [eauto | discriminate].
Qed.

(** A property of single items that the item methods keep holds for
    all items of the states reached. *)
Lemma step_items (P : Item float -> Prop) m o m' :
  (forall n c p today, P (Item_init n c p today)) ->
  (forall it qty d, Date.valid d = true -> P it -> P (add_stock it qty d)) ->
  (forall it today, P it -> P (snd (Item_remove_expired it today))) ->
  (undoes_stock m o = true ->
   forall it delta, P it -> P (Item_add_quantity it delta)) ->
  Forall (fun e => P (snd e)) (items m) ->
  apply_op m o = Some m' ->
  Forall (fun e => P (snd e)) (items m').
Proof.
  intros Hinit Hadd Hrem Hundo HP Hstep.
  destruct o as [n c p today | n qty e | today |]; simpl in Hstep.
  - inversion Hstep; subst m'; clear Hstep. unfold add_item.
    destruct (Py.mem n (items m)); simpl; [exact HP |].
    apply Forall_set; [apply Hinit | exact HP].
  - inversion Hstep; subst m'; clear Hstep. unfold update_quantity.
    destruct (Py.mem n (items m)); simpl; [| exact HP].
    destruct (Date.strptime e) as [d |] eqn:Hd; simpl; [| exact HP].
    apply Forall_alter; [| exact HP].
    intros it Hit. apply Hadd; [| exact Hit].
    eapply strptime_valid, Hd.
  - inversion Hstep; subst m'; clear Hstep. unfold remove_expired.
    pose proof (remove_expired_loop_items today (items m)) as Hi.
    destruct (remove_expired_loop today (items m)) as [results its].
    simpl in *. subst its. apply List.Forall_map. simpl.
    eapply List.Forall_impl; [| exact HP]. intros [k it]. simpl. apply Hrem.
  - unfold undoes_stock, top in Hundo. unfold undo_last_action in Hstep.
    destruct (Py.pop (action_stack m)) as [[stack a] |] eqn:Hp.
    + destruct a as [n | n delta];
        destruct (Py.get n (items m)) as [item |]; try discriminate;
        inversion Hstep; subst m'; clear Hstep; simpl in *.
      * apply Forall_del, HP.
      * apply Forall_alter; [| exact HP].
        intros it Hit. apply Hundo; [reflexivity | exact Hit].
    + inversion Hstep; subst m'. exact HP.
Qed.

Lemma reachable_items (P : Item float -> Prop)
    (excluded : InventoryManager float -> op float -> bool) :
  (forall n c p today, P (Item_init n c p today)) ->
  (forall it qty d, Date.valid d = true -> P it -> P (add_stock it qty d)) ->
  (forall it today, P it -> P (snd (Item_remove_expired it today))) ->
  (forall m o, excluded m o = false -> undoes_stock m o = true ->
   forall it delta, P it -> P (Item_add_quantity it delta)) ->
  forall m, reachable_without excluded m ->
            Forall (fun e => P (snd e)) (items m).
Proof.
  intros Hinit Hadd Hrem Hundo m H.
  induction H as [| m o m' _ IH Hex Hstep]; [constructor |].
  eapply step_items; eauto.
Qed.
End Invariants.

Section Totals.
Context {float : Type}.
Implicit Types (m : InventoryManager float) (it : Item float).

Lemma consistent_add_stock it (qty : Z) (d : Date.date) :
  consistent it -> consistent (add_stock it qty d).
Proof.
  unfold consistent. simpl. intros H.
  rewrite batch_total_sort_queue, batch_total_app, H. simpl. lia.
Qed.

Lemma consistent_remove_expired it (today : Date.date) :
  consistent it -> consistent (snd (Item_remove_expired it today)).
Proof.
  unfold consistent. intros H.
  destruct (Item_remove_expired_prefix it today) as (taken & Hq & _ & Hn).
  rewrite Hn, H. rewrite Hq at 1. rewrite batch_total_app. lia.
Qed.

Lemma valid_dates_add_stock it (qty : Z) (d : Date.date) :
  Date.valid d = true -> valid_dates it -> valid_dates (add_stock it qty d).
Proof.
  unfold valid_dates. simpl. intros Hd H.
  apply List.Forall_forall. intros b Hb.
  apply (proj1 (sort_queue_In b _)) in Hb.
  apply in_app_or in Hb. destruct Hb as [Hb | [<- | []]]; [| exact Hd].
  rewrite List.Forall_forall in H. apply H, Hb.
Qed.

Lemma valid_dates_remove_expired it (today : Date.date) :
  valid_dates it -> valid_dates (snd (Item_remove_expired it today)).
Proof.
  unfold valid_dates. intros H.
  destruct (Item_remove_expired_prefix it today) as (taken & Hq & _ & _).
  rewrite Hq in H. apply Forall_app in H. apply H.
Qed.

Lemma sorted_remove_expired it (today : Date.date) :
  queue_sorted (expiry_queue it) = true ->
  queue_sorted (expiry_queue (snd (Item_remove_expired it today))) = true.
Proof.
  intros H.
  destruct (Item_remove_expired_prefix it today) as (taken & Hq & _ & _).
  rewrite Hq in H. clear Hq.
  induction taken as [| b taken IH]; [exact H |].
  apply IH. eapply queue_sorted_tail. exact H.
Qed.

(** The queues of a reachable state are in expiry order and hold dates
    in range. *)
Lemma reachable_queues m :
  reachable m ->
  Forall (fun e => queue_sorted (expiry_queue (snd e)) = true /\
                   valid_dates (snd e)) (items m).
Proof.
  apply (reachable_items
           (fun it => queue_sorted (expiry_queue it) = true /\ valid_dates it)).
  - intros n c p today. split; [reflexivity | constructor].
  - intros it qty d Hd [Hs Hv]. split.
    + apply sort_queue_sorted.
    + apply valid_dates_add_stock; assumption.
  - intros it today [Hs Hv]. split.
    + apply sorted_remove_expired, Hs.
    + apply valid_dates_remove_expired, Hv.
  - intros m' o _ _ it delta H. exact H.
Qed.
End Totals.

(** C1, as the program has it.  In every state reached from the empty
    registry by [add_item], [update_quantity], [remove_expired] and
    [undo_last_action], as long as no undo pops an [update_quantity]
    record, the quantity of every item is the sum of the quantities of
    its batches. *)
Theorem quantity_is_batch_total_without_stock_undo {float : Type}
    (m : InventoryManager float) :
  reachable_without undoes_stock m ->
  forall k it, Py.get k (items m) = Some it ->
               quantity it = batch_total (expiry_queue it).
Proof.
  intros H k it Hget.
  assert (Hall : Forall (fun e => consistent (snd e)) (items m)).
  { revert H. apply (reachable_items consistent).
    - intros n c p today. reflexivity.
    - intros it' qty d _. apply consistent_add_stock.
    - intros it' today. apply consistent_remove_expired.
    - intros m' o H1 H2. congruence. }
  rewrite List.Forall_forall in Hall.
  apply get_In in Hget. apply (Hall (k, it) Hget).
Qed.

(** ** The category set *)

Section Categories.
Context {float : Type}.
Implicit Types (m : InventoryManager float) (it : Item float).
Implicit Types (d : Py.dict (Item float)).

Lemma elem_of_referenced (x : string) d :
  x ∈ referenced d <-> exists e, In e d /\ category (snd e) = x.
Proof.
  unfold referenced. rewrite elem_of_list_to_set, list_elem_of_In, in_map_iff.
  split; intros (e & H1 & H2); exists e; auto.
Qed.

Lemma referenced_app d1 d2 :
  referenced (d1 ++ d2) = referenced d1 ∪ referenced d2.
Proof. unfold referenced. rewrite map_app. apply list_to_set_app_L. Qed.

Lemma referenced_alter (f : Item float -> Item float) (k : string) d :
  (forall it, category (f it) = category it) ->
  referenced (Py.alter f k d) = referenced d.
Proof.
  intros Hf. unfold referenced. f_equal.
  induction d as [| [k' v] d IH]; simpl; [reflexivity |].
  destruct (String.eqb k k'); simpl; [rewrite Hf | rewrite IH]; reflexivity.
Qed.

Lemma referenced_map (g : Item float -> Item float) d :
  (forall it, category (g it) = category it) ->
  referenced (map (fun e => (fst e, g (snd e))) d) = referenced d.
Proof.
  intros Hg. unfold referenced. f_equal. rewrite map_map. simpl.
  apply map_ext. intros e. apply Hg.
Qed.

Lemma referenced_del (k : string) (item : Item float) d (C : gset string) :
  Py.get k d = Some item ->
  C ⊆ referenced d ->
  C ∖ {[ category item ]} ⊆ referenced (Py.del k d).
Proof.
  intros Hget HC x Hx. apply elem_of_difference in Hx.
  destruct Hx as [Hx Hne]. apply HC in Hx.
  apply elem_of_referenced in Hx. destruct Hx as (e & He & Hc).
  apply elem_of_referenced. exists e. split; [| exact Hc].
  eapply In_del_other; [exact Hget | exact He |].
  intros ->. simpl in Hc. apply Hne. rewrite <- Hc.
  apply elem_of_singleton. reflexivity.
Qed.

Lemma items_remove_expired m (today : Date.date) :
  referenced (items (snd (remove_expired m today))) = referenced (items m) /\
  categories (snd (remove_expired m today)) = categories m.
Proof.
  unfold remove_expired.
  pose proof (remove_expired_loop_items today (items m)) as Hi.
  destruct (remove_expired_loop today (items m)) as [results its].
  simpl in *. subst its. split; [| reflexivity].
  apply (referenced_map (fun it => snd (Item_remove_expired it today))).
  intros it. apply Item_remove_expired_fields.
Qed.

Lemma step_categories_subset m (o : op float) m' :
  categories m ⊆ referenced (items m) ->
  apply_op m o = Some m' ->
  categories m' ⊆ referenced (items m').
Proof.
  intros HC Hstep. destruct o as [n c p today | n qty e | today |];
    simpl in Hstep.
  - inversion Hstep; subst m'; clear Hstep. unfold add_item.
    destruct (Py.mem n (items m)) eqn:Hm; simpl; [exact HC |].
    rewrite set_new by exact Hm. rewrite referenced_app.
    unfold referenced at 2. simpl. set_solver.
  - inversion Hstep; subst m'; clear Hstep. unfold update_quantity.
    destruct (Py.mem n (items m)); simpl; [| exact HC].
    destruct (Date.strptime e); simpl; [| exact HC].
    rewrite referenced_alter by reflexivity. exact HC.
  - inversion Hstep; subst m'; clear Hstep.
    destruct (items_remove_expired m today) as [-> ->]. exact HC.
  - unfold undo_last_action in Hstep.
    destruct (Py.pop (action_stack m)) as [[stack a] |].
    + destruct a as [n | n delta];
        destruct (Py.get n (items m)) as [item |] eqn:Hg; try discriminate;
        inversion Hstep; subst m'; clear Hstep; simpl.
      * eapply referenced_del; eassumption.
      * rewrite referenced_alter by reflexivity. exact HC.
    + inversion Hstep; subst m'. exact HC.
Qed.

Lemma step_categories_equal m (o : op float) m' :
  undoes_create m o = false ->
  categories m = referenced (items m) ->
  apply_op m o = Some m' ->
  categories m' = referenced (items m').
Proof.
  intros Hex HC Hstep. destruct o as [n c p today | n qty e | today |];
    simpl in Hstep.
  - inversion Hstep; subst m'; clear Hstep. unfold add_item.
    destruct (Py.mem n (items m)) eqn:Hm; simpl; [exact HC |].
    rewrite set_new by exact Hm. rewrite referenced_app, HC.
    unfold referenced at 3. simpl. set_solver.
  - inversion Hstep; subst m'; clear Hstep. unfold update_quantity.
    destruct (Py.mem n (items m)); simpl; [| exact HC].
    destruct (Date.strptime e); simpl; [| exact HC].
    rewrite referenced_alter by reflexivity. exact HC.
  - inversion Hstep; subst m'; clear Hstep.
    destruct (items_remove_expired m today) as [-> ->]. exact HC.
  - unfold undoes_create, top in Hex. unfold undo_last_action in Hstep.
    destruct (Py.pop (action_stack m)) as [[stack a] |].
    + destruct a as [n | n delta]; [discriminate |].
      destruct (Py.get n (items m)) as [item |]; try discriminate.
      inversion Hstep; subst m'; clear Hstep; simpl.
      rewrite referenced_alter by reflexivity. exact HC.
    + inversion Hstep; subst m'. exact HC.
Qed.
End Categories.

(** C6, as the program has it.  In every reachable state each category
    of the category set is the category of some item of the registry.
    The two sets are equal in every state reached without undoing the
    creation of an item. *)
Theorem categories_are_referenced {float : Type} (m : InventoryManager float) :
  (reachable m -> categories m ⊆ referenced (items m)) /\
  (reachable_without undoes_create m -> categories m = referenced (items m)).
Proof.
  split.
  - induction 1 as [| m o m' _ IH _ Hstep]; [set_solver |].
    eapply step_categories_subset; eassumption.
  - induction 1 as [| m o m' _ IH Hex Hstep]; [set_solver |].
    eapply step_categories_equal; eassumption.
Qed.

(** ** Export and import *)

Section RoundTrip.
Context {float : Type}.
Implicit Types (m : InventoryManager float) (it : Item float).
Implicit Types (d : Py.dict (Item float)) (today : Date.date).

Lemma parse_dates_str (ds : list Date.date) :
  Forall (fun x => Date.valid x = true) ds ->
  parse_dates (map Date.str ds) = Some ds.
Proof.
  induction 1 as [| x ds Hx _ IH]; [reflexivity |].
  simpl. rewrite (strptime_str x Hx), IH. reflexivity.
Qed.

Lemma alter_alter (f g : Item float -> Item float) (k : string) d :
  Py.alter g k (Py.alter f k d) = Py.alter (fun it => g (f it)) k d.
Proof.
  induction d as [| [k' v] d IH]; simpl; [reflexivity |].
  destruct (String.eqb k k') eqn:E; simpl; rewrite E;
    [| rewrite IH]; reflexivity.
Qed.

Lemma alter_last (f : Item float -> Item float) (k : string) it d :
  Py.mem k d = false ->
  Py.alter f k (d ++ [(k, it)]) = d ++ [(k, f it)].
Proof.
  unfold Py.mem. induction d as [| [k' v] d IH]; simpl.
  - rewrite String.eqb_refl. reflexivity.
  - destruct (String.eqb k k'); [discriminate |].
    intros H. rewrite IH by exact H. reflexivity.
Qed.

Lemma alter_ext (f g : Item float -> Item float) (k : string) d :
  (forall it, f it = g it) -> Py.alter f k d = Py.alter g k d.
Proof.
  intros H. induction d as [| [k' v] d IH]; simpl; [reflexivity |].
  rewrite H, IH. reflexivity.
Qed.

Lemma get_map (g : string -> Item float -> Item float) (k : string) d :
  Py.get k (map (fun e => (fst e, g (fst e) (snd e))) d) =
  option_map (g k) (Py.get k d).
Proof.
  induction d as [| [k' v] d IH]; simpl; [reflexivity |].
  destruct (String.eqb_spec k k') as [-> | Hne]; [reflexivity | exact IH].
Qed.

(** Replaying the dates of one entry adds one unit of stock per date
    to the item of that name. *)
Lemma replay_dates_state m (n : string) (ds : list Date.date) :
  Py.mem n (items m) = true ->
  Forall (fun x => Date.valid x = true) ds ->
  items (replay_dates m n ds) =
    Py.alter (fun it => add_stocks it (map (fun x => (1, x)) ds)) n (items m) /\
  categories (replay_dates m n ds) = categories m.
Proof.
  intros Hm Hds. revert m Hm.
  induction Hds as [| x ds Hx _ IH]; intros m Hm.
  - simpl. split; [| reflexivity].
    clear Hm. induction (items m) as [| [k v] d IHd]; simpl; [reflexivity |].
    destruct (String.eqb n k); [reflexivity |]. rewrite <- IHd. reflexivity.
  - simpl. unfold update_quantity.
    rewrite Hm, (strptime_str x Hx). simpl.
    match goal with
    | |- context [replay_dates ?m1 n ds] =>
        destruct (IH m1) as [Hi Hc]
    end.
    { simpl. apply mem_keys. rewrite keys_alter. apply mem_keys, Hm. }
    rewrite Hi, Hc. simpl. split; [| reflexivity].
    apply alter_alter.
Qed.

(** Importing what was exported from the items [its] into a registry
    that has none of their names appends the re-imported items. *)
Lemma import_exported (its : Py.dict (Item float)) m today :
  NoDup (Py.keys (items m) ++ Py.keys its) ->
  Forall (fun e => valid_dates (snd e)) its ->
  let r := import_from_json m
             (map (fun e => (fst e, to_dict (snd e))) its) today in
  fst r = true /\
  items (snd r) =
    items m ++ map (fun e => (fst e, reimported today (fst e) (snd e))) its /\
  categories (snd r) = categories m ∪ referenced its.
Proof.
  intros Hnd Hv. revert m Hnd.
  induction Hv as [| [k it] its Hit _ IH]; intros m Hnd.
  - simpl. rewrite app_nil_r. unfold referenced. simpl.
    repeat split. set_solver.
  - cbn zeta. simpl map. simpl import_from_json.
    assert (Hk : Py.mem k (items m) = false).
    { apply mem_false_keys. intros Hin.
      apply NoDup_app in Hnd. destruct Hnd as (_ & Hd & _).
      apply (Hd k); [apply list_elem_of_In, Hin |].
      simpl. left. }
    assert (Hp : parse_dates
              (map (fun x : batch => Date.str (fst x)) (expiry_queue it)) =
            Some (map fst (expiry_queue it))).
    { replace (map (fun x : batch => Date.str (fst x)) (expiry_queue it))
        with (map Date.str (map fst (expiry_queue it)))
        by (rewrite map_map; reflexivity).
      apply parse_dates_str. apply List.Forall_map. exact Hit. }
    rewrite Hp. unfold add_item. rewrite Hk. simpl negb. cbv iota.
    cbn [snd]. rewrite set_new by exact Hk.
    match goal with
    | |- context [replay_dates ?m1 k ?ds] =>
        destruct (replay_dates_state m1 k ds) as [Hi Hc]
    end.
    { simpl. apply mem_keys. unfold Py.keys. rewrite map_app.
      apply in_or_app. right. left. reflexivity. }
    { apply List.Forall_map. exact Hit. }
    simpl in Hi, Hc. rewrite alter_last in Hi by exact Hk.
    match goal with
    | |- context [import_from_json ?m1 _ today] =>
        specialize (IH m1)
    end.
    cbn zeta in IH.
    destruct IH as (H1 & H2 & H3).
    { rewrite Hi. unfold Py.keys in *. rewrite map_app. simpl in *.
      rewrite <- app_assoc. exact Hnd. }
    rewrite H1, H2, H3, Hi, Hc. split; [reflexivity |]. split.
    + rewrite <- app_assoc. simpl. unfold reimported, Item_init. simpl.
      rewrite map_map. reflexivity.
    + change ((k, it) :: its) with ([(k, it)] ++ its).
      rewrite referenced_app. unfold referenced at 3. simpl. set_solver.
Qed.

Lemma reimported_facts today (k : string) it :
  let it' := reimported today k it in
  Permutation (map fst (expiry_queue it')) (map fst (expiry_queue it)) /\
  Forall (fun b => snd b = 1) (expiry_queue it') /\
  quantity it' = Z.of_nat (length (expiry_queue it)) /\
  queue_sorted (expiry_queue it') = true /\
  name it' = k /\ category it' = category it /\ price it' = price it /\
  date_added it' = today.
Proof.
  cbn zeta. unfold reimported.
  pose proof (add_stocks_sorted (Item_init k (category it) (price it) today)
                (map (fun b : batch => (1, fst b)) (expiry_queue it)) eq_refl)
    as Hs.
  pose proof (add_stocks_Permutation
                (Item_init k (category it) (price it) today)
                (map (fun b : batch => (1, fst b)) (expiry_queue it)))
    as Hperm.
  simpl in Hperm. rewrite map_map in Hperm. unfold batch_of in Hperm. simpl in Hperm.
  split; [| split; [| split; [| split]]].
  - rewrite Hperm, map_map. reflexivity.
  - eapply Permutation_Forall; [symmetry; exact Hperm |].
    apply List.Forall_map. apply List.Forall_forall. reflexivity.
  - rewrite add_stocks_quantity. simpl quantity. rewrite map_map.
    unfold batch_of. simpl fst. simpl snd.
    assert (H : forall q : list batch,
               batch_total (map (fun x : batch => (fst x, 1)) q) =
               Z.of_nat (length q)).
    { induction q as [| b q IH]; [reflexivity |].
      simpl batch_total. simpl length. rewrite IH. lia. }
    rewrite H. lia.
  - exact Hs.
  - generalize (map (fun b : batch => (1, fst b)) (expiry_queue it)).
    intros calls. induction calls as [| x calls IH] using rev_ind;
      [simpl; auto |].
    rewrite add_stocks_snoc. simpl. exact IH.
Qed.
Lemma unit_queue_sorted (q : list batch) :
  queue_sorted (map (fun b : batch => (fst b, 1)) q) = queue_sorted q.
Proof.
  unfold queue_sorted. induction q as [| b q IH]; [reflexivity |].
  destruct q as [| c q]; [reflexivity |].
  simpl in *. rewrite IH. reflexivity.
Qed.

(** Calls that come in expiry order are queued in the order of the
    calls. *)
Lemma add_stocks_in_order (n c : string) (p : float) today
    (calls : list (Z * Date.date)) :
  queue_sorted (map batch_of calls) = true ->
  expiry_queue (add_stocks (Item_init n c p today) calls) = map batch_of calls.
Proof.
  induction calls as [| x calls IH] using rev_ind; [reflexivity |].
  intros Hs. rewrite add_stocks_snoc. simpl expiry_queue.
  rewrite map_app in Hs. simpl map in Hs.
  rewrite IH by (eapply is_sorted_app_l; exact Hs).
  rewrite map_app. simpl map. unfold sort_queue.
  apply sorted_of_sorted. exact Hs.
Qed.

(** An item whose queue is in expiry order comes back with the same
    dates in the same order, one unit for each batch. *)
Lemma reimported_queue today (k : string) it :
  queue_sorted (expiry_queue it) = true ->
  expiry_queue (reimported today k it) =
  map (fun b : batch => (fst b, 1)) (expiry_queue it).
Proof.
  intros Hs. unfold reimported.
  rewrite add_stocks_in_order; rewrite map_map; unfold batch_of; simpl.
  - reflexivity.
  - rewrite unit_queue_sorted. exact Hs.
Qed.
End RoundTrip.

(** C7, as the program has it.  Exporting a reachable registry and
    importing the result into an empty registry succeeds and gives the
    same names in the same order.  Each item comes back with its
    category and its price and with a queue that has, for every batch
    of the original queue and in the same order, one batch of quantity
    1 with the same expiry date; so the expiry dates are the same, and
    the quantity is the number of batches the item had (not its former
    quantity). *)
Theorem export_import_keeps_dates_and_counts_batches {float : Type}
    (m : InventoryManager float) (today : Date.date) :
  reachable m ->
  let r := import_from_json InventoryManager_init (export_to_json m) today in
  fst r = true /\
  Py.keys (items (snd r)) = Py.keys (items m) /\
  forall k it,
    Py.get k (items m) = Some it ->
    exists it',
      Py.get k (items (snd r)) = Some it' /\
      (forall d, In d (map fst (expiry_queue it')) <->
                 In d (map fst (expiry_queue it))) /\
      Forall (fun b => snd b = 1) (expiry_queue it') /\
      length (expiry_queue it') = length (expiry_queue it) /\
      quantity it' = Z.of_nat (length (expiry_queue it)) /\
      category it' = category it /\ price it' = price it /\
      expiry_queue it' = map (fun b => (fst b, 1)) (expiry_queue it) /\
      map fst (expiry_queue it') = map fst (expiry_queue it).
Proof.
  intros Hr. cbn zeta. unfold export_to_json.
  pose proof (reachable_NoDup m Hr) as Hnd.
  pose proof (reachable_queues m Hr) as Hq.
  destruct (import_exported (items m) InventoryManager_init today)
    as (H1 & H2 & _).
  { exact Hnd. }
  { eapply List.Forall_impl; [| exact Hq]. intros e [_ H]. exact H. }
  simpl in H2. rewrite H1, H2. split; [reflexivity |]. split.
  - unfold Py.keys. rewrite map_map. reflexivity.
  - intros k it Hget.
    rewrite (get_map (reimported today)), Hget. simpl.
    eexists. split; [reflexivity |].
    destruct (reimported_facts today k it) as (Hp & Hu & Hn & _ & _ & Hc & Hpr & _).
    assert (Hqueue : expiry_queue (reimported today k it) =
                     map (fun b : batch => (fst b, 1)) (expiry_queue it)).
    { apply reimported_queue. rewrite List.Forall_forall in Hq.
      apply get_In in Hget. apply (Hq (k, it) Hget). }
    split; [| split; [exact Hu | split; [| split; [exact Hn |]]]].
    + intros d. split; apply Permutation_in; [exact Hp | symmetry; exact Hp].
    + apply Permutation_length in Hp. rewrite !length_map in Hp. exact Hp.
    + split; [exact Hc |]. split; [exact Hpr |]. split; [exact Hqueue |].
      rewrite Hqueue, map_map. reflexivity.
Qed.

(** ** The program on the sample runs *)

Example strptime_iso :
  Date.strptime "2099-01-01" = Some (Date.mkdate 2099 1 1).
Proof. reflexivity. Qed.

Example strptime_unpadded :
  Date.strptime "2020-1-5" = Some (Date.mkdate 2020 1 5).
Proof. reflexivity. Qed.

Example strptime_feb30 : Date.strptime "2021-02-30" = None.
Proof. reflexivity. Qed.

Example strptime_trailing : Date.strptime "2021-02-035" = None.
Proof. reflexivity. Qed.

Example str_date_iso : Date.str (Date.mkdate 987 3 9) = "0987-03-09".
Proof. reflexivity. Qed.

Example shop_state :
  items Examples.shop =
  [("Milk",
    {| name := "Milk"; category := "Dairy"; price := 50; quantity := 10;
       expiry_queue := [(Date.mkdate 2099 1 1, 10)];
       date_added := Examples.today |})].
Proof. vm_compute. reflexivity. Qed.

(** C1 fails after the undo of a stock update: [add_item("Milk",
    "Dairy", 50)], [update_quantity("Milk", 10, "2099-01-01")] and
    [undo_last_action()] leave the item with quantity 0 and one batch of
    10 units. *)
Lemma stock_undo_breaks_quantity :
  reachable Examples.milk_undone /\
  exists it,
    Py.get "Milk" (items Examples.milk_undone) = Some it /\
    quantity it = 0 /\
    batch_total (expiry_queue it) = 10 /\
    quantity it <> batch_total (expiry_queue it).
Proof.
  split.
  - apply (run_reachable (Examples.milk_ops ++ [UndoLast]) Examples.empty);
      [apply reach_init | vm_compute; reflexivity].
  - eexists. split; [vm_compute; reflexivity |].
    repeat split. discriminate.
Qed.

(** The run [shop_ops] undoes no stock update, and the quantity of its
    item is the sum of its batches. *)
Lemma quantity_is_batch_total_on_shop :
  reachable_without undoes_stock Examples.shop /\
  forall k it,
    Py.get k (items Examples.shop) = Some it ->
    quantity it = batch_total (expiry_queue it).
Proof.
  assert (H : reachable_without undoes_stock Examples.shop).
  { apply (run_without_reachable undoes_stock Examples.shop_ops Examples.empty);
      [apply reach_init | vm_compute; reflexivity]. }
  split; [exact H |].
  exact (quantity_is_batch_total_without_stock_undo Examples.shop H).
Defined.

(** The undo of the stock update of [milk_ops]: the quantity goes from
    10 to 0, the batch of 10 units stays. *)
Lemma undo_on_milk :
  Py.pop (action_stack Examples.milk) =
    Some ([delete_item "Milk"], update_quantity_by "Milk" (-10)) /\
  Py.get "Milk" (items Examples.milk) = Some Examples.milk_item /\
  (exists it',
     Py.get "Milk" (items (snd (undo_last_action Examples.milk))) = Some it' /\
     quantity it' = 0 /\
     expiry_queue it' = [(Date.mkdate 2099 1 1, 10)]) /\
  categories (snd (undo_last_action Examples.milk)) = categories Examples.milk.
Proof.
  assert (Hp : Py.pop (action_stack Examples.milk) =
               Some ([delete_item "Milk"], update_quantity_by "Milk" (-10)))
    by (vm_compute; reflexivity).
  assert (Hg : Py.get "Milk" (items Examples.milk) = Some Examples.milk_item)
    by (vm_compute; reflexivity).
  destruct (undo_update_quantity_only_moves_the_total
              Examples.milk _ _ _ _ Hp Hg)
    as (_ & (it' & Hi & Hq & He & _) & _ & _ & Hc & _).
  split; [exact Hp |]. split; [exact Hg |]. split; [| exact Hc].
  exists it'. split; [exact Hi |]. split; [exact Hq | exact He].
Defined.

(** The pear on the day [today]: the batch of 2020 goes, the batch that
    expires on [today] and the batch of 2030 stay. *)
Lemma remove_expired_on_pear :
  queue_sorted (expiry_queue Examples.pear) = true /\
  expiry_queue (snd (Item_remove_expired Examples.pear Examples.today)) =
    [(Date.mkdate 2024 6 1, 4); (Date.mkdate 2030 1 1, 6)] /\
  fst (Item_remove_expired Examples.pear Examples.today) = 5 /\
  quantity (snd (Item_remove_expired Examples.pear Examples.today)) = 10.
Proof.
  destruct (remove_expired_exactly_the_expired
              Examples.pear Examples.today eq_refl)
    as (Hq & _ & _ & Hr & _ & Hn & _).
  split; [reflexivity |]. split; [exact Hq |]. split; [exact Hr |].
  rewrite Hn, Hr. reflexivity.
Defined.

(** C5 fails on the order: with the items added in the order pear,
    apple, the message for the pear comes first, although "apple" sorts
    before "pear". *)
Lemma evictions_reported_in_insertion_order :
  reachable Examples.fruit /\
  fst (remove_expired Examples.fruit Examples.today) =
    ["5 units removed from 'pear'"; "7 units removed from 'apple'"] /\
  String.ltb "apple" "pear" = true /\
  fst (remove_expired Examples.fruit Examples.today) <>
    map (fun x => removed_message (snd x) (fst x))
      (List.filter (fun x => 0 <? snd x)
         (evictions Examples.today
            (Py.sorted fst String.ltb (items Examples.fruit)))).
Proof.
  split.
  - apply (run_reachable Examples.fruit_ops Examples.empty);
      [apply reach_init | vm_compute; reflexivity].
  - split; [vm_compute; reflexivity |].
    split; [reflexivity |].
    vm_compute. discriminate.
Qed.

(** The fruit registry on the day [today]. *)
Lemma remove_expired_on_fruit :
  positive_batches (items Examples.fruit) /\
  fst (remove_expired Examples.fruit Examples.today) =
    map (fun x => removed_message (snd x) (fst x)) [("pear", 5); ("apple", 7)] /\
  action_stack (snd (remove_expired Examples.fruit Examples.today)) =
    action_stack Examples.fruit.
Proof.
  assert (Hp : positive_batches (items Examples.fruit)).
  { unfold positive_batches. vm_compute. repeat constructor. }
  destruct (remove_expired_reports_in_insertion_order
              Examples.fruit Examples.today)
    as (_ & _ & Hs & _ & Hr).
  split; [exact Hp |]. split; [| exact Hs].
  rewrite (Hr Hp). vm_compute. reflexivity.
Defined.

(** C6 fails after the undo of a creation: with two items of the
    category "Dairy", undoing the creation of the second one empties the
    category set while the first item is still there. *)
Lemma create_undo_drops_shared_category :
  reachable Examples.dairy /\
  Py.keys (items Examples.dairy) = ["Milk"] /\
  ("Dairy" ∈ referenced (items Examples.dairy)) /\
  ("Dairy" ∉ categories Examples.dairy) /\
  categories Examples.dairy <> referenced (items Examples.dairy).
Proof.
  assert (E1 : elements (referenced (items Examples.dairy)) = ["Dairy"])
    by (vm_compute; reflexivity).
  assert (E2 : elements (categories Examples.dairy) = [])
    by (vm_compute; reflexivity).
  assert (H1 : "Dairy" ∈ referenced (items Examples.dairy)).
  { apply elem_of_elements. rewrite E1. apply list_elem_of_In. left. reflexivity. }
  assert (H2 : "Dairy" ∉ categories Examples.dairy).
  { intros H. apply elem_of_elements in H. rewrite E2 in H.
    apply list_elem_of_In in H. destruct H. }
  split.
  - apply (run_reachable Examples.dairy_ops Examples.empty);
      [apply reach_init | vm_compute; reflexivity].
  - split; [vm_compute; reflexivity |].
    split; [exact H1 |]. split; [exact H2 |].
    intros Heq. apply H2. rewrite Heq. exact H1.
Qed.

(** The category set on the runs [dairy_ops], which undoes a creation,
    and [milk_ops] with its last call undone, which does not. *)
Lemma categories_on_sample_runs :
  reachable Examples.dairy /\
  categories Examples.dairy ⊆ referenced (items Examples.dairy) /\
  reachable_without undoes_create Examples.milk_undone /\
  categories Examples.milk_undone = referenced (items Examples.milk_undone).
Proof.
  assert (H1 : reachable Examples.dairy).
  { apply (run_reachable Examples.dairy_ops Examples.empty);
      [apply reach_init | vm_compute; reflexivity]. }
  assert (H2 : reachable_without undoes_create Examples.milk_undone).
  { apply (run_without_reachable undoes_create
             (Examples.milk_ops ++ [UndoLast]) Examples.empty);
      [apply reach_init | vm_compute; reflexivity]. }
  split; [exact H1 |].
  split; [exact (proj1 (categories_are_referenced Examples.dairy) H1) |].
  split; [exact H2 |].
  exact (proj2 (categories_are_referenced Examples.milk_undone) H2).
Defined.

(** C7 fails on the quantity: an item with one batch of 10 units comes
    back from export and import with quantity 1. *)
Lemma import_counts_batches_not_units :
  reachable Examples.milk /\
  option_map quantity (Py.get "Milk" (items Examples.milk)) = Some 10 /\
  option_map quantity
    (Py.get "Milk"
       (items (snd (import_from_json InventoryManager_init
                      (export_to_json Examples.milk) Examples.today))))
  = Some 1.
Proof.
  split.
  - apply (run_reachable Examples.milk_ops Examples.empty);
      [apply reach_init | vm_compute; reflexivity].
  - split; vm_compute; reflexivity.
Qed.

(** Export and import of the fruit registry. *)
Lemma export_import_on_fruit :
  reachable Examples.fruit /\
  fst (import_from_json InventoryManager_init
         (export_to_json Examples.fruit) Examples.today) = true /\
  Py.keys (items (snd (import_from_json InventoryManager_init
                         (export_to_json Examples.fruit) Examples.today)))
  = ["pear"; "apple"].
Proof.
  assert (H : reachable Examples.fruit).
  { apply (run_reachable Examples.fruit_ops Examples.empty);
      [apply reach_init | vm_compute; reflexivity]. }
  destruct (export_import_keeps_dates_and_counts_batches
              Examples.fruit Examples.today H) as (H1 & H2 & _).
  split; [exact H |]. split; [exact H1 |].
  rewrite H2. vm_compute. reflexivity.
Defined.

(** [update_quantity] on an absent name, on a date that does not exist
    and on a valid call. *)
Lemma update_quantity_on_milk :
  (Py.mem "Bread" (items Examples.milk) = false /\
   update_quantity Examples.milk "Bread" 5 "2020-01-01" = (false, Examples.milk)) /\
  (Date.strptime "2021-02-30" = None /\
   update_quantity Examples.milk "Milk" 5 "2021-02-30" = (false, Examples.milk)) /\
  (Py.get "Milk" (items Examples.milk) = Some Examples.milk_item /\
   Date.strptime "2020-01-01" = Some (Date.mkdate 2020 1 1) /\
   fst (update_quantity Examples.milk "Milk" 5 "2020-01-01") = true /\
   action_stack (snd (update_quantity Examples.milk "Milk" 5 "2020-01-01")) =
     action_stack Examples.milk ++ [update_quantity_by "Milk" (-5)]) /\
  (Date.iso "2020-01-01" /\
   fst (update_quantity Examples.milk "Milk" 5 "2020-01-01") = true).
Proof.
  destruct (update_quantity_adds_or_refuses Examples.milk "Bread" 5 "2020-01-01")
    as (Habsent & _).
  destruct (update_quantity_adds_or_refuses Examples.milk "Milk" 5 "2021-02-30")
    as (_ & Hdate & _).
  destruct (update_quantity_adds_or_refuses Examples.milk "Milk" 5 "2020-01-01")
    as (_ & _ & Hok & Hiso).
  assert (Hm : Py.mem "Bread" (items Examples.milk) = false)
    by (vm_compute; reflexivity).
  assert (Hg : Py.get "Milk" (items Examples.milk) = Some Examples.milk_item)
    by (vm_compute; reflexivity).
  assert (Hi : Date.iso "2020-01-01").
  { exists (Date.mkdate 2020 1 1). split; reflexivity. }
  destruct (Hok Examples.milk_item (Date.mkdate 2020 1 1) Hg eq_refl)
    as (H1 & _ & _ & _ & _ & _ & _ & H2).
  destruct (Hiso Examples.milk_item Hg Hi) as [H3 _].
  split; [exact (conj Hm (Habsent Hm)) |].
  split; [exact (conj eq_refl (Hdate eq_refl)) |].
  split; [| exact (conj Hi H3)].
  auto.
Defined.

(** C8 fails on a text that is not in the ISO form: [2024-1-5] has no
    padding, and [update_quantity] stocks the item with it. *)
Lemma unpadded_date_is_stocked :
  ~ Date.iso "2024-1-5" /\
  ~ Date.iso "2024-01- 5" /\
  fst (update_quantity Examples.milk "Milk" 5 "2024-1-5") = true /\
  option_map quantity
    (Py.get "Milk"
       (items (snd (update_quantity Examples.milk "Milk" 5 "2024-1-5"))))
    = Some 15 /\
  option_map (fun it : Item Z => expiry_queue it)
    (Py.get "Milk"
       (items (snd (update_quantity Examples.milk "Milk" 5 "2024-1-5"))))
    = Some [(Date.mkdate 2024 1 5, 5); (Date.mkdate 2099 1 1, 10)] /\
  fst (update_quantity Examples.milk "Milk" 5 "2024-01- 5") = true.
Proof.
  split; [| split].
  - intros (d & Hv & Hs). pose proof (strptime_str d Hv) as Hp.
    rewrite Hs in Hp. vm_compute in Hp. inversion Hp; subst d.
    vm_compute in Hs. discriminate Hs.
  - intros (d & Hv & Hs). pose proof (strptime_str d Hv) as Hp.
    rewrite Hs in Hp. vm_compute in Hp. inversion Hp; subst d.
    vm_compute in Hs. discriminate Hs.
  - repeat split; vm_compute; reflexivity.
Qed.

(** [add_item] on a name already in the registry and on a new name. *)
Lemma add_item_on_milk :
  (Py.mem "Milk" (items Examples.milk) = true /\
   add_item Examples.milk "Milk" "Bread" 10 Examples.today =
     (false, Examples.milk)) /\
  (Py.mem "Bread" (items Examples.milk) = false /\
   fst (add_item Examples.milk "Bread" "Bakery" 10 Examples.today) = true /\
   categories (snd (add_item Examples.milk "Bread" "Bakery" 10 Examples.today)) =
     categories Examples.milk ∪ {[ "Bakery" ]} /\
   action_stack (snd (add_item Examples.milk "Bread" "Bakery" 10 Examples.today)) =
     action_stack Examples.milk ++ [delete_item "Bread"]).
Proof.
  destruct (add_item_new_or_refused Examples.milk "Milk" "Bread" 10 Examples.today)
    as (Hdup & _).
  destruct (add_item_new_or_refused Examples.milk "Bread" "Bakery" 10 Examples.today)
    as (_ & Hnew).
  assert (H1 : Py.mem "Milk" (items Examples.milk) = true)
    by (vm_compute; reflexivity).
  assert (H2 : Py.mem "Bread" (items Examples.milk) = false)
    by (vm_compute; reflexivity).
  destruct (Hnew H2) as (Ht & _ & _ & _ & Hc & Hs).
  split; [exact (conj H1 (Hdup H1)) |].
  auto.
Defined.

Example report_row_of_milk :
  generate_report (fun n p => n * p) Py.str_int Examples.milk None =
  Ok [{| Name := "Milk"; Category := "Dairy"; Quantity := 10; Price := "₹50";
         Value := "₹500"; Expiry_Dates := "2099-01-01" |}].
Proof. vm_compute. reflexivity. Qed.

Example undo_on_empty_stack :
  fst (undo_last_action Examples.empty) = Ok "No actions to undo.".
Proof. reflexivity. Qed.

(** ** Further properties of the program *)

(** X1.  The text that [str] gives for a date in range has ten
    characters, and [strptime] with the format [%Y-%m-%d] reads it back
    as the same date: the expiry dates written by [to_dict] are accepted
    by [import_from_json] and by [update_quantity]. *)
Theorem date_text_round_trip (d : Date.date) :
  Date.valid d = true ->
  Date.strptime (Date.str d) = Some d /\
  String.length (Date.str d) = 10%nat.
Proof.
  intros H. split; [apply strptime_str, H |].
  destruct d as [y m d]. reflexivity.
Qed.

Section MoreInvariants.
Context {float : Type}.
Implicit Types (m : InventoryManager float) (it : Item float).
Implicit Types (o : op float) (s : list action).

Lemma Forall_alter_entry {V : Type} (Q : string * V -> Prop) (f : V -> V)
    (k : string) (d : Py.dict V) :
  (forall k' v, Q (k', v) -> Q (k', f v)) ->
  Forall Q d -> Forall Q (Py.alter f k d).
Proof.
  intros Hf. induction d as [| [k' v'] d IH]; simpl; intros H.
  - constructor.
  - inversion H as [| ? ? H1 H2]; subst.
    destruct (String.eqb k k'); constructor; auto.
Qed.

Lemma Forall_set_entry {V : Type} (Q : string * V -> Prop) (k : string)
    (v : V) (d : Py.dict V) :
  Q (k, v) -> Forall Q d -> Forall Q (Py.set k v d).
Proof.
  intros Hv. induction d as [| [k' v'] d IH]; simpl; intros H.
  - constructor; [exact Hv | constructor].
  - inversion H as [| ? ? H1 H2]; subst.
    destruct (String.eqb_spec k k') as [-> | Hne]; constructor; auto.
Qed.

Lemma step_names m o m' :
  Forall (fun e => name (snd e) = fst e) (items m) ->
  apply_op m o = Some m' ->
  Forall (fun e => name (snd e) = fst e) (items m').
Proof.
  intros HP Hstep.
  destruct o as [n c p today | n qty e | today |]; simpl in Hstep.
  - inversion Hstep; subst m'; clear Hstep. unfold add_item.
    destruct (Py.mem n (items m)); simpl; [exact HP |].
    apply Forall_set_entry; [reflexivity | exact HP].
  - inversion Hstep; subst m'; clear Hstep. unfold update_quantity.
    destruct (Py.mem n (items m)); simpl; [| exact HP].
    destruct (Date.strptime e) as [d |]; simpl; [| exact HP].
    apply Forall_alter_entry; [| exact HP]. intros k' v Hv. exact Hv.
  - inversion Hstep; subst m'; clear Hstep. unfold remove_expired.
    pose proof (remove_expired_loop_items today (items m)) as Hi.
    destruct (remove_expired_loop today (items m)) as [results its].
    simpl in *. subst its. apply List.Forall_map. simpl.
    eapply List.Forall_impl; [| exact HP]. intros [k it]. simpl.
    intros <-. apply Item_remove_expired_fields.
  - unfold undo_last_action in Hstep.
    destruct (Py.pop (action_stack m)) as [[stack a] |].
    + destruct a as [n | n delta];
        destruct (Py.get n (items m)) as [item |]; try discriminate;
        inversion Hstep; subst m'; clear Hstep; simpl.
      * apply Forall_del, HP.
      * apply Forall_alter_entry; [| exact HP]. intros k' v Hv. exact Hv.
    + inversion Hstep; subst m'. exact HP.
Qed.

Lemma stack_wf_updates s :
  stack_wf s ->
  forall n delta, In (update_quantity_by n delta) s -> In n (created s).
Proof.
  induction 1 as [| s n' _ IH _ | s n' delta' _ IH Hn];
    intros n delta Hin; [destruct Hin | |];
    rewrite created_app; apply in_or_app;
    apply in_app_or in Hin; destruct Hin as [Hin | [Hin | []]].
  - left. eapply IH, Hin.
  - discriminate.
  - left. eapply IH, Hin.
  - inversion Hin; subst. left. exact Hn.
Qed.

Lemma undo_step_reachable m :
  reachable m ->
  exists msg, fst (undo_last_action m) = Ok msg /\
              apply_op m UndoLast = Some (snd (undo_last_action m)).
Proof.
  intros H. apply reachable_stack in H. destruct H as [Hk Hw].
  destruct (undo_returns m Hk Hw) as [msg Hmsg].
  exists msg. split; [exact Hmsg |]. simpl.
  destruct (undo_last_action m) as [[msg' | e] m']; simpl in *;
    [reflexivity | discriminate].
Qed.
End MoreInvariants.

(** X2.  In every reachable state [undo_last_action] returns a message:
    the item named by the record it pops is in the registry, so no
    [KeyError] escapes; the state it leaves is reachable again. *)
Theorem undo_never_raises {float : Type} (m : InventoryManager float) :
  reachable m ->
  (exists msg, fst (undo_last_action m) = Ok msg) /\
  reachable (snd (undo_last_action m)).
Proof.
  intros H. destruct (undo_step_reachable m H) as (msg & Hmsg & Hstep).
  split; [eauto |].
  eapply reach_step; [exact H | reflexivity | exact Hstep].
Qed.

Lemma reachable_item_name {float : Type}
    (m : InventoryManager float) :
  reachable m ->
  forall k it, Py.get k (items m) = Some it -> name it = k /\ valid_dates it.
Proof.
  intros H k it Hget.
  assert (Hall : Forall (fun e => name (snd e) = fst e) (items m)).
  { clear k it Hget. induction H as [| m o m' _ IH _ Hstep]; [constructor |].
    eapply step_names; eassumption. }
  pose proof (reachable_queues m H) as Hq.
  rewrite List.Forall_forall in Hall, Hq.
  apply get_In in Hget. split; [apply (Hall (k, it) Hget) |].
  apply (Hq (k, it) Hget).
Qed.

(** X3.  In every reachable state the item stored under a name carries
    that name, and no two items share a name. *)
Theorem items_are_stored_under_their_names {float : Type}
    (m : InventoryManager float) :
  reachable m ->
  NoDup (Py.keys (items m)) /\
  forall k it, Py.get k (items m) = Some it -> name it = k.
Proof.
  intros H. split; [apply reachable_NoDup, H |].
  assert (Hall : Forall (fun e => name (snd e) = fst e) (items m)).
  { induction H as [| m o m' _ IH _ Hstep]; [constructor |].
    eapply step_names; eassumption. }
  intros k it Hget. rewrite List.Forall_forall in Hall.
  apply get_In in Hget. apply (Hall (k, it) Hget).
Qed.

(** X4.  In every reachable state the queue of every item is in
    ascending expiry order and holds only dates in range. *)
Theorem queues_stay_in_expiry_order {float : Type}
    (m : InventoryManager float) :
  reachable m ->
  forall k it,
    Py.get k (items m) = Some it ->
    queue_sorted (expiry_queue it) = true /\ valid_dates it.
Proof.
  intros H k it Hget. pose proof (reachable_queues m H) as Hall.
  rewrite List.Forall_forall in Hall.
  apply get_In in Hget. apply (Hall (k, it) Hget).
Qed.

(** X5.  In every reachable state the names of the items, in the order
    of [items], are the names of the [delete_item] records of the undo
    stack, oldest first; every [update_quantity] record names an item of
    the registry; so the stack has at least as many records as the
    registry has items. *)
Theorem undo_stack_mirrors_items {float : Type}
    (m : InventoryManager float) :
  reachable m ->
  Py.keys (items m) = created (action_stack m) /\
  (forall n delta,
     In (update_quantity_by n delta) (action_stack m) ->
     Py.mem n (items m) = true) /\
  (length (items m) <= length (action_stack m))%nat.
Proof.
  intros H. apply reachable_stack in H. destruct H as [Hk Hw].
  split; [exact Hk |]. split.
  - intros n delta Hin. apply mem_keys. rewrite Hk.
    eapply stack_wf_updates; eassumption.
  - assert (Hlen : forall s, (length (created s) <= length s)%nat).
    { induction s as [| [n | n delta] s IH]; simpl; lia. }
    specialize (Hlen (action_stack m)). rewrite <- Hk in Hlen.
    unfold Py.keys in Hlen. rewrite length_map in Hlen. exact Hlen.
Qed.

Section UndoFacts.
Context {float : Type}.
Implicit Types (m : InventoryManager float) (it : Item float).

Lemma del_last {V : Type} (k : string) (v : V) (d : Py.dict V) :
  Py.mem k d = false -> Py.del k (d ++ [(k, v)]) = d.
Proof.
  unfold Py.mem. induction d as [| [k' v'] d IH]; simpl.
  - rewrite String.eqb_refl. reflexivity.
  - destruct (String.eqb k k'); [discriminate |].
    intros H. rewrite IH by exact H. reflexivity.
Qed.

Lemma get_last {V : Type} (k : string) (v : V) (d : Py.dict V) :
  Py.mem k d = false -> Py.get k (d ++ [(k, v)]) = Some v.
Proof.
  intros H. rewrite <- (set_new k v d H). apply get_set_eq.
Qed.

Lemma undo_pops m (stack : list action) (a : action) :
  Py.pop (action_stack m) = Some (stack, a) ->
  action_stack (snd (undo_last_action m)) = stack.
Proof.
  intros Hp. unfold undo_last_action. rewrite Hp.
  destruct a as [n | n delta]; destruct (Py.get n (items m)); reflexivity.
Qed.

Lemma reachable_categories_subset m :
  reachable m -> categories m ⊆ referenced (items m).
Proof.
  induction 1 as [| m o m' _ IH _ Hstep]; [set_solver |].
  eapply step_categories_subset; eassumption.
Qed.

Lemma undo_all m (k : nat) :
  reachable m ->
  length (action_stack m) = k ->
  exists m',
    run m (repeat UndoLast k) = Some m' /\ reachable m' /\
    action_stack m' = [].
Proof.
  revert m. induction k as [| k IH]; intros m Hr Hlen.
  - exists m. simpl. repeat split; [exact Hr |].
    destruct (action_stack m); [reflexivity | discriminate].
  - destruct (Py.pop (action_stack m)) as [[stack a] |] eqn:Hp.
    + destruct (undo_step_reachable m Hr) as (msg & _ & Hstep).
      pose proof (undo_pops m stack a Hp) as Hs.
      apply pop_Some in Hp. rewrite Hp, length_app in Hlen. simpl in Hlen.
      destruct (IH (snd (undo_last_action m))) as (m' & Hrun & Hr' & He).
      * eapply reach_step; [exact Hr | reflexivity | exact Hstep].
      * rewrite Hs. lia.
      * exists m'. simpl repeat. simpl run.
        simpl in Hstep. rewrite Hstep. auto.
    + apply pop_None in Hp. rewrite Hp in Hlen. discriminate.
Qed.
End UndoFacts.

(** X6.  [undo_last_action] right after a successful [add_item] gives
    back the items and the undo stack as they were before the call.  The
    category of the item is taken out of the category set, so the whole
    state is the former one exactly when that category was not in the
    set before. *)
Theorem undo_reverts_add_item {float : Type} (m : InventoryManager float)
    (n c : string) (p : float) (today : Date.date) :
  Py.mem n (items m) = false ->
  let m1 := snd (add_item m n c p today) in
  fst (undo_last_action m1) = Ok ("Undid: Deleted item '" ++ n ++ "'")%string /\
  items (snd (undo_last_action m1)) = items m /\
  action_stack (snd (undo_last_action m1)) = action_stack m /\
  categories (snd (undo_last_action m1)) = categories m ∖ {[ c ]} /\
  (c ∉ categories m -> snd (undo_last_action m1) = m).
Proof.
  intros Hn. cbn zeta. unfold add_item. rewrite Hn. simpl.
  unfold undo_last_action. simpl action_stack. rewrite pop_app.
  simpl items. rewrite set_new by exact Hn.
  rewrite get_last by exact Hn. simpl. rewrite del_last by exact Hn.
  assert (Hc : (categories m ∪ {[c]}) ∖ {[c]} = categories m ∖ {[c]})
    by set_solver.
  rewrite Hc. repeat split.
  intros Hnot. destruct m as [its stack cats]. simpl in *.
  f_equal. set_solver.
Qed.

(** X7.  [undo_last_action] right after a successful [update_quantity]
    gives back the quantity of the item, the undo stack and the category
    set, and leaves the other items alone; the batch that the call added
    stays in the queue, so the batches of the item then sum to its
    former total plus the quantity of the call. *)
Theorem undo_after_update_keeps_the_batch {float : Type}
    (m : InventoryManager float) (n : string) (qty : Z)
    (expiry_date : string) (it : Item float) (d : Date.date) :
  Py.get n (items m) = Some it ->
  Date.strptime expiry_date = Some d ->
  let m1 := snd (update_quantity m n qty expiry_date) in
  let m2 := snd (undo_last_action m1) in
  fst (undo_last_action m1) =
    Ok ("Undid: Quantity adjustment for '" ++ n ++ "'")%string /\
  action_stack m2 = action_stack m /\
  categories m2 = categories m /\
  Py.keys (items m2) = Py.keys (items m) /\
  (forall k, k <> n -> Py.get k (items m2) = Py.get k (items m)) /\
  exists it2,
    Py.get n (items m2) = Some it2 /\
    quantity it2 = quantity it /\
    expiry_queue it2 = sort_queue (expiry_queue it ++ [(d, qty)]) /\
    batch_total (expiry_queue it2) = batch_total (expiry_queue it) + qty.
Proof.
  intros Hit Hd. cbn zeta. unfold update_quantity.
  assert (Hm : Py.mem n (items m) = true) by (apply mem_get; eauto).
  rewrite Hm, Hd. simpl snd. unfold undo_last_action. simpl action_stack.
  rewrite pop_app. simpl items. rewrite get_alter_eq, Hit. simpl.
  split; [reflexivity |]. split; [reflexivity |]. split; [reflexivity |].
  split; [rewrite !keys_alter; reflexivity |].
  split; [intros k Hk; rewrite !get_alter_ne by exact Hk; reflexivity |].
  eexists. rewrite !get_alter_eq, Hit. simpl. split; [reflexivity |].
  simpl. split; [lia |]. split; [reflexivity |].
  rewrite batch_total_sort_queue, batch_total_app. simpl. lia.
Qed.

(** X8.  From every reachable state, as many [undo_last_action] calls
    as the undo stack has records all return and leave a registry with
    no item, no record and no category. *)
Theorem undoing_everything_empties_the_registry {float : Type}
    (m : InventoryManager float) :
  reachable m ->
  exists m',
    run m (repeat UndoLast (length (action_stack m))) = Some m' /\
    items m' = [] /\ action_stack m' = [] /\ categories m' = ∅.
Proof.
  intros H. destruct (undo_all m _ H eq_refl) as (m' & Hrun & Hr & Hs).
  exists m'. split; [exact Hrun |].
  pose proof (reachable_stack m' Hr) as [Hk _].
  pose proof (reachable_categories_subset m' Hr) as Hc.
  rewrite Hs in Hk. simpl in Hk.
  assert (Hi : items m' = []).
  { destruct (items m'); [reflexivity | discriminate]. }
  rewrite Hi in Hc. unfold referenced in Hc. simpl in Hc.
  repeat split; [exact Hi | exact Hs | set_solver].
Qed.

Section EvictionFacts.
Context {float : Type}.
Implicit Types (m : InventoryManager float) (it : Item float).
Implicit Types (today : Date.date).

(** What the loop leaves starts with a batch that has not expired, so a
    second run of the loop takes nothing. *)
Lemma drain_again today (q : list batch) (qty removed qty' : Z) :
  drain today (fst (fst (drain today q qty removed))) qty' 0 =
  (fst (fst (drain today q qty removed)), qty', 0).
Proof.
  revert qty removed. induction q as [| [d k] q IH]; intros qty removed.
  - reflexivity.
  - simpl. destruct (Date.ltb d today) eqn:E; [apply IH |].
    simpl. rewrite E. reflexivity.
Qed.

Lemma Item_remove_expired_again it today :
  Item_remove_expired (snd (Item_remove_expired it today)) today =
  (0, snd (Item_remove_expired it today)).
Proof.
  unfold Item_remove_expired.
  pose proof (drain_again today (expiry_queue it) (quantity it) 0) as H.
  destruct (drain today (expiry_queue it) (quantity it) 0) as [[q k] r].
  simpl in *. rewrite H. reflexivity.
Qed.

Lemma remove_expired_loop_again today (its : Py.dict (Item float)) :
  remove_expired_loop today (snd (remove_expired_loop today its)) =
  ([], snd (remove_expired_loop today its)).
Proof.
  induction its as [| [k it] its IH]; [reflexivity |].
  simpl. pose proof (Item_remove_expired_again it today) as Hit.
  destruct (Item_remove_expired it today) as [removed it'].
  destruct (remove_expired_loop today its) as [results rest].
  simpl in *. rewrite Hit, IH. reflexivity.
Qed.

Lemma filter_not_expired today (q : list batch) :
  Forall (fun b => expired today b = false)
    (List.filter (fun b => negb (expired today b)) q).
Proof.
  apply List.Forall_forall. intros b Hb. apply List.filter_In in Hb.
  destruct Hb as [_ Hb]. apply negb_true_iff in Hb. exact Hb.
Qed.

Lemma positive_add_stock it (qty : Z) (d : Date.date) :
  0 < qty ->
  Forall (fun b : batch => 0 < snd b) (expiry_queue it) ->
  Forall (fun b : batch => 0 < snd b) (expiry_queue (add_stock it qty d)).
Proof.
  intros Hq H. simpl. apply List.Forall_forall. intros b Hb.
  apply (proj1 (sort_queue_In b _)) in Hb.
  apply in_app_or in Hb. destruct Hb as [Hb | [<- | []]]; [| exact Hq].
  rewrite List.Forall_forall in H. apply H, Hb.
Qed.

Lemma positive_remove_expired it today :
  Forall (fun b : batch => 0 < snd b) (expiry_queue it) ->
  Forall (fun b : batch => 0 < snd b)
    (expiry_queue (snd (Item_remove_expired it today))).
Proof.
  intros H.
  destruct (Item_remove_expired_prefix it today) as (taken & Hq & _ & _).
  rewrite Hq in H. apply Forall_app in H. apply H.
Qed.

Lemma step_positive m (o : op float) m' :
  stocks_nonpositive m o = false ->
  positive_batches (items m) ->
  apply_op m o = Some m' ->
  positive_batches (items m').
Proof.
  unfold positive_batches. intros Hex HP Hstep.
  destruct o as [n c p today | n qty e | today |]; simpl in Hstep.
  - inversion Hstep; subst m'; clear Hstep. unfold add_item.
    destruct (Py.mem n (items m)); simpl; [exact HP |].
    apply (Forall_set (fun it => Forall (fun b : batch => 0 < snd b)
                                   (expiry_queue it)));
      [constructor | exact HP].
  - inversion Hstep; subst m'; clear Hstep. unfold update_quantity.
    destruct (Py.mem n (items m)); simpl; [| exact HP].
    destruct (Date.strptime e) as [d |]; simpl; [| exact HP].
    apply (Forall_alter (fun it => Forall (fun b : batch => 0 < snd b)
                                     (expiry_queue it))); [| exact HP].
    intros it. apply positive_add_stock.
    simpl in Hex. apply Z.leb_gt in Hex. exact Hex.
  - inversion Hstep; subst m'; clear Hstep. unfold remove_expired.
    pose proof (remove_expired_loop_items today (items m)) as Hi.
    destruct (remove_expired_loop today (items m)) as [results its].
    simpl in *. subst its. apply List.Forall_map. simpl.
    eapply List.Forall_impl; [| exact HP]. intros [k it]. simpl.
    apply positive_remove_expired.
  - unfold undo_last_action in Hstep.
    destruct (Py.pop (action_stack m)) as [[stack a] |].
    + destruct a as [n | n delta];
        destruct (Py.get n (items m)) as [item |]; try discriminate;
        inversion Hstep; subst m'; clear Hstep; simpl.
      * apply Forall_del, HP.
      * apply (Forall_alter (fun it => Forall (fun b : batch => 0 < snd b)
                                         (expiry_queue it))); [| exact HP].
        intros it Hit. exact Hit.
    + inversion Hstep; subst m'. exact HP.
Qed.
End EvictionFacts.

(** X9.  [remove_expired] run a second time on the same day finds
    nothing: it returns no message and leaves the registry as the first
    run left it. *)
Theorem remove_expired_twice_is_once {float : Type}
    (m : InventoryManager float) (today : Date.date) :
  remove_expired (snd (remove_expired m today)) today =
  ([], snd (remove_expired m today)).
Proof.
  unfold remove_expired.
  pose proof (remove_expired_loop_again today (items m)) as H.
  destruct (remove_expired_loop today (items m)) as [results its].
  simpl in *. rewrite H. reflexivity.
Qed.

(** X10.  After [remove_expired] on a reachable state no item holds a
    batch whose expiry date is before the day of the run. *)
Theorem nothing_expired_after_remove_expired {float : Type}
    (m : InventoryManager float) (today : Date.date) :
  reachable m ->
  forall k it,
    Py.get k (items (snd (remove_expired m today))) = Some it ->
    none_expired today it.
Proof.
  intros H k it Hget. apply get_In in Hget.
  pose proof (reachable_queues m H) as Hall.
  unfold remove_expired in Hget.
  pose proof (remove_expired_loop_items today (items m)) as Hi.
  destruct (remove_expired_loop today (items m)) as [results its].
  simpl in *. subst its. apply in_map_iff in Hget.
  destruct Hget as ([k0 it0] & Heq & Hin). simpl in Heq.
  inversion Heq; subst k it; clear Heq.
  rewrite List.Forall_forall in Hall.
  destruct (Hall (k0, it0) Hin) as [Hs _]. simpl in Hs.
  unfold none_expired, Item_remove_expired.
  rewrite (drain_sorted today _ _ _ Hs). simpl.
  apply filter_not_expired.
Qed.

(** X11.  In every state reached by calls in which every stock update
    adds a positive quantity, every batch of every item has a positive
    quantity. *)
Theorem positive_updates_keep_batches_positive {float : Type}
    (m : InventoryManager float) :
  reachable_without stocks_nonpositive m ->
  positive_batches (items m).
Proof.
  induction 1 as [| m o m' _ IH Hex Hstep]; [constructor |].
  eapply step_positive; eassumption.
Qed.

Section ReportFacts.
Context {float : Type}.
Variable int_mul_float : Z -> float -> float.
Variable format_2f : float -> string.
Implicit Types (m : InventoryManager float) (it : Item float).
Implicit Types (d : Py.dict (Item float)).

Lemma string_ltb_asym (a b : string) :
  String.ltb a b = true -> String.ltb b a = false.
Proof.
  unfold String.ltb. rewrite (String.compare_antisym b a).
  destruct (String.compare a b); simpl; congruence.
Qed.

Lemma string_ltb_total (a b : string) :
  String.ltb a b = false -> String.ltb b a = false -> a = b.
Proof.
  unfold String.ltb. rewrite (String.compare_antisym b a).
  destruct (String.compare a b) eqn:E; simpl; try discriminate.
  intros _ _. apply String.compare_eq_iff, E.
Qed.

Lemma string_ltb_trans (a b c : string) :
  String.ltb a b = true -> String.ltb b c = true -> String.ltb a c = true.
Proof.
  unfold String.ltb. intros H1 H2.
  destruct (String.compare a b) eqn:E1; try discriminate.
  destruct (String.compare b c) eqn:E2; try discriminate.
  apply String_as_OT.cmp_lt in E1, E2.
  pose proof (String_as_OT.lt_trans _ _ _ E1 E2) as H3.
  apply String_as_OT.cmp_lt in H3. unfold String_as_OT.cmp in H3.
  rewrite H3. reflexivity.
Qed.

Lemma In_get (k : string) it d :
  NoDup (Py.keys d) -> In (k, it) d -> Py.get k d = Some it.
Proof.
  unfold Py.keys. induction d as [| [k' v'] d IH]; simpl; intros Hnd Hin.
  - destruct Hin.
  - apply NoDup_cons in Hnd. destruct Hnd as [Hk Hd].
    destruct Hin as [Heq | Hin].
    + inversion Heq; subst. rewrite String.eqb_refl. reflexivity.
    + destruct (String.eqb_spec k k') as [-> | Hne]; [| apply IH; assumption].
      exfalso. apply Hk. apply list_elem_of_In, in_map_iff.
      exists (k', it). auto.
Qed.

(** A list with distinct keys whose neighbours are in order is in
    strict order throughout. *)
Lemma sorted_distinct_strict d :
  NoDup (Py.keys d) ->
  Py.is_sorted (fst : string * Item float -> string) String.ltb d = true ->
  StronglySorted (fun e1 e2 => String.ltb (fst e1) (fst e2) = true) d.
Proof.
  intros Hnd Hs. apply Sorted_StronglySorted.
  { intros x y z. apply string_ltb_trans. }
  unfold Py.keys in Hnd.
  induction d as [| [k v] d IH]; [constructor |].
  apply NoDup_cons in Hnd. destruct Hnd as [Hk Hd].
  constructor.
  - apply IH; [exact Hd |].
    simpl in Hs. destruct d; [reflexivity |].
    apply andb_true_iff in Hs. apply Hs.
  - destruct d as [| [k' v'] d]; constructor. simpl.
    simpl in Hs. apply andb_true_iff in Hs. destruct Hs as [Hs _].
    apply negb_true_iff in Hs.
    destruct (String.ltb k k') eqn:E; [reflexivity |].
    exfalso. apply Hk. rewrite (string_ltb_total k k' E Hs).
    simpl. left.
Qed.

(** The test of the loop: an item is kept when no filter is in force or
    when its category is the filter. *)
Lemma kept_iff (f : option string) it :
  kept f it = true <->
  f = None \/ f = Some "" \/ f = Some (category it).
Proof.
  unfold kept. rewrite negb_true_iff.
  destruct f as [s |]; simpl; [| tauto].
  destruct (String.eqb_spec s "") as [-> | Hs]; simpl; [tauto |].
  destruct (String.eqb_spec (category it) s) as [<- | Hc]; simpl.
  - tauto.
  - split; [discriminate |].
    intros [H | [H | H]]; inversion H; congruence.
Qed.

Lemma filter_strongly_sorted {A : Type} (R : A -> A -> Prop)
    (p : A -> bool) (l : list A) :
  StronglySorted R l -> StronglySorted R (List.filter p l).
Proof.
  induction 1 as [| x l _ IH Hall]; simpl; [constructor |].
  destruct (p x); [| exact IH]. constructor; [exact IH |].
  apply List.Forall_forall. intros y Hy. apply List.filter_In in Hy.
  rewrite List.Forall_forall in Hall. apply Hall, Hy.
Qed.

Lemma rows_names_sorted d :
  StronglySorted (fun e1 e2 => String.ltb (fst e1) (fst e2) = true) d ->
  StronglySorted (fun a b => String.ltb a b = true)
    (map Name
       (map (fun e => row_of int_mul_float format_2f (fst e) (snd e)) d)).
Proof.
  induction 1 as [| e d _ IH Hall]; simpl; [constructor |].
  constructor; [exact IH |].
  rewrite map_map. simpl. apply List.Forall_map. exact Hall.
Qed.
End ReportFacts.

(** X12.  For a reachable registry and any filter, an item passes the
    filter when the filter is [None] or empty or is the category of the
    item.  [generate_report] raises [OverflowError] exactly when the
    quantity of some item that passes the filter is beyond the range of
    a float.  Otherwise it returns the rows of the items that pass the
    filter and of no other, in strictly ascending order of the item
    names. *)
Theorem report_rows_by_name_and_category {float : Type}
    (int_mul_float : Z -> float -> float) (format_2f : float -> string)
    (m : InventoryManager float) (category_filter : option string) :
  reachable m ->
  match generate_report int_mul_float format_2f m category_filter with
  | Ok rows =>
      (forall n it,
         Py.get n (items m) = Some it ->
         category_filter = None \/ category_filter = Some "" \/
         category_filter = Some (category it) ->
         overflows it = false) /\
      StronglySorted (fun a b => String.ltb a b = true) (map Name rows) /\
      forall r,
        In r rows <->
        exists n it,
          Py.get n (items m) = Some it /\
          (category_filter = None \/ category_filter = Some "" \/
           category_filter = Some (category it)) /\
          r = row_of int_mul_float format_2f n it
  | Raise e =>
      e = OverflowError /\
      exists n it,
        Py.get n (items m) = Some it /\
        (category_filter = None \/ category_filter = Some "" \/
         category_filter = Some (category it)) /\
        overflows it = true
  end.
Proof.
  intros H. unfold generate_report. rewrite report_loop_result.
  pose proof (reachable_NoDup m H) as Hnd.
  pose proof (sorted_Permutation (fst : string * Item float -> string)
                String.ltb (items m)) as Hperm.
  assert (Hnd' : NoDup (Py.keys (Py.sorted fst String.ltb (items m)))).
  { unfold Py.keys in *.
    assert (Hp : Permutation (map fst (Py.sorted fst String.ltb (items m)))
                   (map fst (items m)))
      by (apply Permutation_map; exact Hperm).
    rewrite Hp. exact Hnd. }
  destruct (existsb _ (Py.sorted fst String.ltb (items m))) eqn:E.
  - split; [reflexivity |]. apply existsb_exists in E.
    destruct E as ([n it] & Hin & Hk). simpl in Hk.
    apply andb_true_iff in Hk. destruct Hk as [Hk Ho].
    exists n, it. split; [| split; [apply kept_iff, Hk | exact Ho]].
    apply In_get; [exact Hnd |].
    eapply Permutation_in; [exact Hperm | exact Hin].
  - split; [| split].
    + intros n it Hget Hk. apply kept_iff in Hk.
      destruct (overflows it) eqn:Ho; [| reflexivity].
      assert (existsb (fun e => kept category_filter (snd e) &&
                                overflows (snd e))
                (Py.sorted fst String.ltb (items m)) = true) as E'.
      { apply existsb_exists. exists (n, it). simpl. rewrite Hk, Ho.
        split; [| reflexivity].
        eapply Permutation_in; [symmetry; exact Hperm |].
        apply get_In, Hget. }
      congruence.
    + apply rows_names_sorted, filter_strongly_sorted.
      apply sorted_distinct_strict; [exact Hnd' |].
      apply sorted_is_sorted. exact string_ltb_asym.
    + intros r. rewrite in_map_iff. split.
      * intros ([n it] & <- & Hin). apply List.filter_In in Hin.
        destruct Hin as [Hin Hk]. simpl in Hk. exists n, it.
        split; [| split; [apply kept_iff, Hk | reflexivity]].
        apply In_get; [exact Hnd |].
        eapply Permutation_in; [exact Hperm | exact Hin].
      * intros (n & it & Hget & Hk & ->). exists (n, it).
        split; [reflexivity |]. apply List.filter_In. simpl.
        split; [| apply kept_iff, Hk].
        eapply Permutation_in; [symmetry; exact Hperm |].
        apply get_In, Hget.
Qed.

(** X13.  [get_item_details] returns [None] for a name that is not in
    the registry.  For a name that is there it raises [OverflowError]
    when the quantity of the item is beyond the range of a float;
    otherwise it returns the data of the item, and the unfiltered
    report, when it returns, has the row made of the same data: the
    same name, category and quantity, the price and the total value
    formatted, the expiry dates joined. *)
Theorem details_agree_with_report {float : Type}
    (int_mul_float : Z -> float -> float) (format_2f : float -> string)
    (m : InventoryManager float) (n : string) :
  (Py.mem n (items m) = false ->
   get_item_details int_mul_float m n = Ok None) /\
  (forall it,
     Py.get n (items m) = Some it ->
     overflows it = true ->
     get_item_details int_mul_float m n = Raise OverflowError) /\
  (forall it,
     Py.get n (items m) = Some it ->
     overflows it = false ->
     exists d,
       get_item_details int_mul_float m n = Ok (Some d) /\
       det_Name d = n /\ det_Category d = category it /\
       det_Quantity d = quantity it /\ det_Price d = price it /\
       det_Total_Value d = int_mul_float (quantity it) (price it) /\
       det_Expiry_Dates d =
         map (fun b : batch => Date.str (fst b)) (expiry_queue it) /\
       forall rows,
         generate_report int_mul_float format_2f m None = Ok rows ->
         In {| Name := det_Name d; Category := det_Category d;
               Quantity := det_Quantity d;
               Price := ("₹" ++ format_2f (det_Price d))%string;
               Value := ("₹" ++ format_2f (det_Total_Value d))%string;
               Expiry_Dates := String.concat ", " (det_Expiry_Dates d) |}
            rows).
Proof.
  unfold get_item_details, int_times_float, overflows. split; [| split].
  - intros H. rewrite H. reflexivity.
  - intros it Hget Ho.
    assert (Hm : Py.mem n (items m) = true) by (apply mem_get; eauto).
    rewrite Hm, Hget, Ho. reflexivity.
  - intros it Hget Ho.
    assert (Hm : Py.mem n (items m) = true) by (apply mem_get; eauto).
    rewrite Hm, Hget, Ho. eexists. split; [reflexivity |]. simpl.
    repeat split. intros rows Hrows.
    rewrite report_unfiltered in Hrows by reflexivity.
    destruct (existsb _ (items m)); [discriminate |].
    inversion Hrows; subst rows.
    apply in_map_iff. exists (n, it). split; [reflexivity |].
    eapply Permutation_in; [symmetry; apply sorted_Permutation |].
    apply get_In, Hget.
Qed.

Section SummaryFacts.
Context {float : Type}.
Variable int_mul_float : Z -> float -> float.
Variable format_2f : float -> string.
Variable float_of_str : string -> option float.
Hypothesis float_of_str_rupee :
  forall s, float_of_str ("₹" ++ s)%string = None.

(** The value of a row starts with the rupee sign, with or without the
    dollar signs. *)
Lemma row_value_refused (k : string) (it : Item float) :
  float_of_str
    (replace_dollar (Value (row_of int_mul_float format_2f k it))) = None.
Proof using float_of_str_rupee.
  exact (float_of_str_rupee
           (replace_dollar
              (format_2f (int_mul_float (quantity it) (price it))))).
Qed.

Lemma report_values_of_rows (d : Py.dict (Item float)) :
  d <> [] ->
  report_values float_of_str
    (map (fun e => row_of int_mul_float format_2f (fst e) (snd e)) d) = None.
Proof using float_of_str_rupee.
  destruct d as [| [k it] d]; [congruence |]. intros _.
  cbn [map report_values fst snd]. rewrite row_value_refused. reflexivity.
Qed.
End SummaryFacts.

(** X14.  Provided that [float] refuses a text that starts with the
    rupee sign, the summary that [update_report] computes fails on every
    report that [generate_report] returns with a row in it: the values
    of the rows are formatted with the rupee sign, the summary strips
    the dollar sign from them, and the conversion of the first value
    raises [ValueError] before any summary text is set.  Only the empty
    report gets a summary, with both counts 0. *)
Theorem summary_fails_on_any_row {float : Type}
    (int_mul_float : Z -> float -> float) (format_2f : float -> string)
    (float_of_str : string -> option float)
    (float_add : float -> float -> float) (float_of_int : Z -> float)
    (m : InventoryManager float) (category_filter : option string)
    (report : list row) :
  (forall s, float_of_str ("₹" ++ s)%string = None) ->
  generate_report int_mul_float format_2f m category_filter = Ok report ->
  (report = [] ->
   report_summary format_2f float_of_str float_add float_of_int report =
   Some ("0", "0", ("$" ++ format_2f (float_of_int 0))%string)) /\
  (report <> [] ->
   report_summary format_2f float_of_str float_add float_of_int report =
   None).
Proof.
  intros Hrupee Hrep. split.
  - intros ->. reflexivity.
  - intros Hne. unfold generate_report in Hrep.
    rewrite report_loop_result in Hrep.
    destruct (existsb _ (Py.sorted fst String.ltb (items m)));
      [discriminate |].
    inversion Hrep; subst report. unfold report_summary.
    rewrite (report_values_of_rows int_mul_float format_2f float_of_str
               Hrupee).
    + reflexivity.
    + intros He. apply Hne. rewrite He. reflexivity.
Qed.

Section ImportFacts.
Context {float : Type}.
Implicit Types (m : InventoryManager float) (it : Item float).
Implicit Types (data : Py.dict (item_dict float)) (today : Date.date).

(** An import goes through its entries in order and stops at the first
    failure. *)
Lemma import_app m data1 data2 today :
  import_from_json m (data1 ++ data2) today =
  if fst (import_from_json m data1 today)
  then import_from_json (snd (import_from_json m data1 today)) data2 today
  else import_from_json m data1 today.
Proof.
  revert m. induction data1 as [| [n e] data1 IH]; intros m; simpl.
  - reflexivity.
  - destruct (parse_dates (d_expiry_dates e)) as [ds |]; [apply IH |].
    reflexivity.
Qed.

Lemma parse_dates_valid (l : list string) (ds : list Date.date) :
  parse_dates l = Some ds -> Forall (fun x => Date.valid x = true) ds.
Proof.
  revert ds. induction l as [| s l IH]; simpl; intros ds H.
  - inversion H. constructor.
  - destruct (Date.strptime s) as [d |] eqn:Hd; [| discriminate].
    destruct (parse_dates l) as [ds' |]; [| discriminate].
    inversion H; subst. constructor; [eapply strptime_valid, Hd |].
    apply IH. reflexivity.
Qed.

Lemma replay_dates_stack m (n : string) (ds : list Date.date) :
  Py.mem n (items m) = true ->
  Forall (fun x => Date.valid x = true) ds ->
  action_stack (replay_dates m n ds) =
  action_stack m ++ map (fun _ => update_quantity_by n (-1)) ds.
Proof.
  intros Hm Hds. revert m Hm.
  induction Hds as [| x ds Hx _ IH]; intros m Hm; simpl.
  - rewrite app_nil_r. reflexivity.
  - unfold update_quantity. rewrite Hm, (strptime_str x Hx). simpl.
    rewrite IH.
    + simpl. rewrite <- app_assoc. reflexivity.
    + simpl. apply mem_keys. rewrite keys_alter. apply mem_keys, Hm.
Qed.

Lemma add_stocks_fields it (calls : list (Z * Date.date)) :
  name (add_stocks it calls) = name it /\
  category (add_stocks it calls) = category it /\
  price (add_stocks it calls) = price it /\
  date_added (add_stocks it calls) = date_added it.
Proof.
  induction calls as [| c calls IH] using rev_ind; [simpl; auto |].
  rewrite add_stocks_snoc. simpl. exact IH.
Qed.

Lemma batch_total_units (ds : list Date.date) :
  batch_total (map batch_of (map (fun x => (1, x)) ds)) =
  Z.of_nat (length ds).
Proof.
  induction ds as [| x ds IH]; [reflexivity |].
  simpl batch_total. simpl length. simpl in IH. rewrite IH. lia.
Qed.
End ImportFacts.

(** X15.  When the dates of an entry do not all parse,
    [import_from_json] returns [False] at that entry: the entries
    before it stay imported, the item of the entry has been created by
    [add_item] (when the name was new) and has received no stock from
    the entry, and the entries after it are not read. *)
Theorem import_stops_at_the_first_bad_date {float : Type}
    (m : InventoryManager float) (before after : Py.dict (item_dict float))
    (n : string) (e : item_dict float) (today : Date.date) :
  fst (import_from_json m before today) = true ->
  parse_dates (d_expiry_dates e) = None ->
  import_from_json m (before ++ (n, e) :: after) today =
  (false,
   snd (add_item (snd (import_from_json m before today)) n
          (d_category e) (d_price e) today)).
Proof.
  intros Hb He. rewrite import_app, Hb. simpl. rewrite He. reflexivity.
Qed.

(** X16.  Importing an entry under the name of an item that the
    registry already has succeeds and adds to that item: its category
    and its price stay (those of the entry are dropped), it gets one
    batch of one unit for every date of the entry, its quantity grows by
    the number of dates, and one [update_quantity] record per date is
    pushed.  The names and the category set do not change. *)
Theorem import_adds_to_an_existing_item {float : Type}
    (m : InventoryManager float) (n : string) (e : item_dict float)
    (ds : list Date.date) (it : Item float) (today : Date.date) :
  Py.get n (items m) = Some it ->
  parse_dates (d_expiry_dates e) = Some ds ->
  let r := import_from_json m [(n, e)] today in
  let it' := add_stocks it (map (fun x => (1, x)) ds) in
  fst r = true /\
  Py.get n (items (snd r)) = Some it' /\
  quantity it' = quantity it + Z.of_nat (length ds) /\
  Permutation (expiry_queue it')
    (expiry_queue it ++ map (fun x => (x, 1)) ds) /\
  category it' = category it /\ price it' = price it /\
  Py.keys (items (snd r)) = Py.keys (items m) /\
  categories (snd r) = categories m /\
  action_stack (snd r) =
    action_stack m ++ map (fun _ => update_quantity_by n (-1)) ds.
Proof.
  intros Hit Hp. cbn zeta. simpl import_from_json. rewrite Hp.
  assert (Hm : Py.mem n (items m) = true) by (apply mem_get; eauto).
  pose proof (parse_dates_valid _ _ Hp) as Hv.
  unfold add_item. rewrite Hm. simpl negb. cbv iota. cbn [snd fst].
  destruct (replay_dates_state m n ds Hm Hv) as [Hi Hc].
  rewrite Hi, Hc, (replay_dates_stack m n ds Hm Hv).
  rewrite get_alter_eq, Hit, keys_alter. simpl option_map.
  destruct (add_stocks_fields it (map (fun x => (1, x)) ds))
    as (_ & Hcat & Hpr & _).
  split; [reflexivity |]. split; [reflexivity |].
  split; [rewrite add_stocks_quantity, batch_total_units; reflexivity |].
  split.
  { rewrite add_stocks_Permutation, map_map. reflexivity. }
  auto.
Qed.

(** X17.  [export_to_json] writes one entry per item, under the names
    and in the order of [items].  For a reachable registry the entry
    under a name is the [to_dict] of the item of that name: it carries
    that name and the quantity of the item, and its expiry dates are
    texts that parse back, in order, to the dates of the queue. *)
Theorem export_lists_every_item {float : Type}
    (m : InventoryManager float) :
  reachable m ->
  Py.keys (export_to_json m) = Py.keys (items m) /\
  forall k it,
    Py.get k (items m) = Some it ->
    Py.get k (export_to_json m) = Some (to_dict it) /\
    d_name (to_dict it) = k /\
    d_quantity (to_dict it) = quantity it /\
    parse_dates (d_expiry_dates (to_dict it)) =
      Some (map fst (expiry_queue it)).
Proof.
  intros H. unfold export_to_json. split.
  - unfold Py.keys. rewrite map_map. reflexivity.
  - intros k it Hget.
    destruct (reachable_item_name m H k it Hget) as [Hn Hv].
    split; [| split; [exact Hn | split; [reflexivity |]]].
    + clear Hn Hv H. induction (items m) as [| [k' v] d IH];
        simpl in *; [discriminate |].
      destruct (String.eqb k k'); [inversion Hget; reflexivity | auto].
    + simpl. replace (map (fun exp : batch => Date.str (fst exp)) (expiry_queue it))
        with (map Date.str (map fst (expiry_queue it)))
        by (rewrite map_map; reflexivity).
      apply parse_dates_str, List.Forall_map, Hv.
Qed.

(** ** The further properties on the sample runs *)

(** A leap day is printed and read back. *)
Lemma leap_day_round_trip :
  Date.valid (Date.mkdate 2024 2 29) = true /\
  Date.strptime (Date.str (Date.mkdate 2024 2 29))
    = Some (Date.mkdate 2024 2 29) /\
  Date.str (Date.mkdate 2024 2 29) = "2024-02-29".
Proof.
  destruct (date_text_round_trip (Date.mkdate 2024 2 29) eq_refl) as [H _].
  split; [reflexivity |]. split; [exact H | reflexivity].
Defined.

(** The undo on the run [milk_ops] returns. *)
Lemma undo_returns_on_milk :
  reachable Examples.milk /\
  fst (undo_last_action Examples.milk) =
    Ok "Undid: Quantity adjustment for 'Milk'" /\
  reachable (snd (undo_last_action Examples.milk)).
Proof.
  assert (H : reachable Examples.milk).
  { apply (run_reachable Examples.milk_ops Examples.empty);
      [apply reach_init | vm_compute; reflexivity]. }
  destruct (undo_never_raises Examples.milk H) as [_ Hr].
  split; [exact H |]. split; [vm_compute; reflexivity | exact Hr].
Defined.

(** The items of the fruit registry carry their names. *)
Lemma names_on_fruit :
  reachable Examples.fruit /\
  NoDup (Py.keys (items Examples.fruit)) /\
  forall k it, Py.get k (items Examples.fruit) = Some it -> name it = k.
Proof.
  assert (H : reachable Examples.fruit).
  { apply (run_reachable Examples.fruit_ops Examples.empty);
      [apply reach_init | vm_compute; reflexivity]. }
  split; [exact H |].
  exact (items_are_stored_under_their_names Examples.fruit H).
Defined.

(** The queues of the fruit registry are in expiry order. *)
Lemma queues_on_fruit :
  reachable Examples.fruit /\
  forall k it,
    Py.get k (items Examples.fruit) = Some it ->
    queue_sorted (expiry_queue it) = true /\ valid_dates it.
Proof.
  assert (H : reachable Examples.fruit).
  { apply (run_reachable Examples.fruit_ops Examples.empty);
      [apply reach_init | vm_compute; reflexivity]. }
  split; [exact H |].
  exact (queues_stay_in_expiry_order Examples.fruit H).
Defined.

(** The undo stack of the run [shop_ops]. *)
Lemma stack_on_shop :
  reachable Examples.shop /\
  Py.keys (items Examples.shop) = created (action_stack Examples.shop) /\
  (length (items Examples.shop) <= length (action_stack Examples.shop))%nat.
Proof.
  assert (H : reachable Examples.shop).
  { apply (run_reachable Examples.shop_ops Examples.empty);
      [apply reach_init | vm_compute; reflexivity]. }
  destruct (undo_stack_mirrors_items Examples.shop H) as (H1 & _ & H2).
  auto.
Defined.

(** Adding bread to the milk registry and undoing it. *)
Lemma add_and_undo_bread :
  Py.mem "Bread" (items Examples.milk) = false /\
  items (snd (undo_last_action
                (snd (add_item Examples.milk "Bread" "Bakery" 10
                        Examples.today)))) = items Examples.milk /\
  snd (undo_last_action
         (snd (add_item Examples.milk "Bread" "Bakery" 10 Examples.today)))
  = Examples.milk.
Proof.
  assert (Hm : Py.mem "Bread" (items Examples.milk) = false)
    by (vm_compute; reflexivity).
  assert (Hc : "Bakery" ∉ categories Examples.milk).
  { assert (E : elements (categories Examples.milk) = ["Dairy"])
      by (vm_compute; reflexivity).
    intros Hin. apply elem_of_elements in Hin. rewrite E in Hin.
    apply list_elem_of_In in Hin. destruct Hin as [Hin | []].
    inversion Hin. }
  destruct (undo_reverts_add_item Examples.milk "Bread" "Bakery" 10
              Examples.today Hm) as (_ & Hi & _ & _ & Hall).
  split; [exact Hm |]. split; [exact Hi | exact (Hall Hc)].
Defined.

(** Stocking the milk and undoing it. *)
Lemma stock_and_undo_milk :
  Py.get "Milk" (items Examples.milk) = Some Examples.milk_item /\
  Date.strptime "2020-01-01" = Some (Date.mkdate 2020 1 1) /\
  exists it2,
    Py.get "Milk"
      (items (snd (undo_last_action
                     (snd (update_quantity Examples.milk "Milk" 5
                             "2020-01-01"))))) = Some it2 /\
    quantity it2 = 10 /\
    batch_total (expiry_queue it2) = 15.
Proof.
  assert (Hg : Py.get "Milk" (items Examples.milk) = Some Examples.milk_item)
    by (vm_compute; reflexivity).
  destruct (undo_after_update_keeps_the_batch Examples.milk "Milk" 5
              "2020-01-01" Examples.milk_item (Date.mkdate 2020 1 1)
              Hg eq_refl)
    as (_ & _ & _ & _ & _ & it2 & H1 & H2 & _ & H3).
  split; [exact Hg |]. split; [reflexivity |].
  exists it2. split; [exact H1 |]. split; [exact H2 | exact H3].
Defined.

(** Undoing the six calls of the run [fruit_ops]. *)
Lemma undo_all_on_fruit :
  reachable Examples.fruit /\
  exists m',
    run Examples.fruit (repeat UndoLast 6) = Some m' /\
    items m' = [] /\ action_stack m' = [] /\ categories m' = ∅.
Proof.
  assert (H : reachable Examples.fruit).
  { apply (run_reachable Examples.fruit_ops Examples.empty);
      [apply reach_init | vm_compute; reflexivity]. }
  split; [exact H |].
  exact (undoing_everything_empties_the_registry Examples.fruit H).
Defined.

(** The fruit registry after an eviction on the day [today]. *)
Lemma nothing_expired_on_fruit :
  reachable Examples.fruit /\
  forall k it,
    Py.get k (items (snd (remove_expired Examples.fruit Examples.today)))
      = Some it ->
    none_expired Examples.today it.
Proof.
  assert (H : reachable Examples.fruit).
  { apply (run_reachable Examples.fruit_ops Examples.empty);
      [apply reach_init | vm_compute; reflexivity]. }
  split; [exact H |].
  exact (nothing_expired_after_remove_expired Examples.fruit Examples.today H).
Defined.

(** All stock updates of the run [fruit_ops] add a positive quantity. *)
Lemma positive_on_fruit :
  reachable_without stocks_nonpositive Examples.fruit /\
  positive_batches (items Examples.fruit).
Proof.
  assert (H : reachable_without stocks_nonpositive Examples.fruit).
  { apply (run_without_reachable stocks_nonpositive Examples.fruit_ops
             Examples.empty);
      [apply reach_init | vm_compute; reflexivity]. }
  split; [exact H |].
  exact (positive_updates_keep_batches_positive Examples.fruit H).
Defined.

(** The report of the fruit registry for the category "Fruit". *)
Lemma report_on_fruit :
  reachable Examples.fruit /\
  exists rows,
    generate_report Z.mul Py.str_int Examples.fruit (Some "Fruit") = Ok rows /\
    map Name rows = ["apple"; "pear"] /\
    StronglySorted (fun a b => String.ltb a b = true) (map Name rows).
Proof.
  assert (H : reachable Examples.fruit).
  { apply (run_reachable Examples.fruit_ops Examples.empty);
      [apply reach_init | vm_compute; reflexivity]. }
  pose proof (report_rows_by_name_and_category Z.mul Py.str_int
                Examples.fruit (Some "Fruit") H) as Hthm.
  destruct (generate_report Z.mul Py.str_int Examples.fruit (Some "Fruit"))
    as [rows | e] eqn:E.
  - destruct Hthm as (_ & Hs & _).
    split; [exact H |]. exists rows. split; [reflexivity |].
    split; [| exact Hs].
    vm_compute in E. inversion E. reflexivity.
  - vm_compute in E. discriminate E.
Defined.

(** The details of the milk, and of bread, which is not there. *)
Lemma details_on_milk :
  (Py.mem "Bread" (items Examples.milk) = false /\
   get_item_details Z.mul Examples.milk "Bread" = Ok None) /\
  (Py.get "Milk" (items Examples.milk) = Some Examples.milk_item /\
   overflows Examples.milk_item = false /\
   exists d,
     get_item_details Z.mul Examples.milk "Milk" = Ok (Some d) /\
     det_Quantity d = 10 /\ det_Total_Value d = 500 /\
     det_Expiry_Dates d = ["2099-01-01"]).
Proof.
  destruct (details_agree_with_report Z.mul Py.str_int Examples.milk "Bread")
    as (Habsent & _ & _).
  destruct (details_agree_with_report Z.mul Py.str_int Examples.milk "Milk")
    as (_ & _ & Hthere).
  assert (Hm : Py.mem "Bread" (items Examples.milk) = false)
    by (vm_compute; reflexivity).
  assert (Hg : Py.get "Milk" (items Examples.milk) = Some Examples.milk_item)
    by (vm_compute; reflexivity).
  assert (Ho : overflows Examples.milk_item = false)
    by (vm_compute; reflexivity).
  destruct (Hthere Examples.milk_item Hg Ho)
    as (d & H1 & _ & _ & H2 & _ & H3 & H4 & _).
  split; [exact (conj Hm (Habsent Hm)) |].
  split; [exact Hg |]. split; [exact Ho |]. exists d.
  split; [exact H1 |]. split; [exact H2 |]. split; [exact H3 | exact H4].
Defined.

(** The summary of the report of the milk registry, with a reader of
    whole numbers for [float]. *)
Lemma summary_on_milk :
  (forall s, Examples.whole_number ("₹" ++ s)%string = None) /\
  (exists report,
     generate_report Z.mul Py.str_int Examples.milk None = Ok report /\
     report <> [] /\
     report_summary Py.str_int Examples.whole_number Z.add (fun n => n)
       report = None) /\
  generate_report Z.mul Py.str_int Examples.empty None = Ok [] /\
  report_summary Py.str_int Examples.whole_number Z.add (fun n => n) []
  = Some ("0", "0", "$0").
Proof.
  assert (Hr : forall s, Examples.whole_number ("₹" ++ s)%string = None)
    by (intros s; reflexivity).
  assert (Hm : generate_report Z.mul Py.str_int Examples.milk None =
               Ok [{| Name := "Milk"; Category := "Dairy"; Quantity := 10;
                      Price := "₹50"; Value := "₹500";
                      Expiry_Dates := "2099-01-01" |}])
    by (vm_compute; reflexivity).
  assert (He : generate_report Z.mul Py.str_int Examples.empty None = Ok [])
    by (vm_compute; reflexivity).
  destruct (summary_fails_on_any_row Z.mul Py.str_int Examples.whole_number
              Z.add (fun n => n) Examples.milk None _ Hr Hm) as [_ Hfail].
  destruct (summary_fails_on_any_row Z.mul Py.str_int Examples.whole_number
              Z.add (fun n => n) Examples.empty None _ Hr He) as [Hempty _].
  split; [exact Hr |]. split.
  - eexists. split; [exact Hm |]. split; [discriminate |].
    apply Hfail. discriminate.
  - split; [exact He | exact (Hempty eq_refl)].
Defined.

(** An import that meets an entry with the date 2030-02-30. *)
Lemma import_with_a_bad_date :
  fst (import_from_json Examples.empty (export_to_json Examples.milk)
         Examples.today) = true /\
  parse_dates (d_expiry_dates Examples.bad_entry) = None /\
  fst (import_from_json Examples.empty
         (export_to_json Examples.milk ++
          ("Tea", Examples.bad_entry) :: export_to_json Examples.fruit)
         Examples.today) = false /\
  Py.keys (items (snd (import_from_json Examples.empty
         (export_to_json Examples.milk ++
          ("Tea", Examples.bad_entry) :: export_to_json Examples.fruit)
         Examples.today))) = ["Milk"; "Tea"].
Proof.
  assert (H1 : fst (import_from_json Examples.empty
                      (export_to_json Examples.milk) Examples.today) = true)
    by (vm_compute; reflexivity).
  assert (H2 : parse_dates (d_expiry_dates Examples.bad_entry) = None)
    by reflexivity.
  pose proof (import_stops_at_the_first_bad_date Examples.empty
                (export_to_json Examples.milk) (export_to_json Examples.fruit)
                "Tea" Examples.bad_entry Examples.today H1 H2) as H.
  split; [exact H1 |]. split; [exact H2 |].
  rewrite H. split; [reflexivity | vm_compute; reflexivity].
Defined.

(** An import of an entry for the milk into the milk registry. *)
Lemma import_more_milk :
  Py.get "Milk" (items Examples.milk) = Some Examples.milk_item /\
  parse_dates (d_expiry_dates Examples.milk_entry) =
    Some [Date.mkdate 2031 5 5; Date.mkdate 2030 1 2] /\
  fst (import_from_json Examples.milk [("Milk", Examples.milk_entry)]
         Examples.today) = true /\
  quantity (add_stocks Examples.milk_item
              [(1, Date.mkdate 2031 5 5); (1, Date.mkdate 2030 1 2)]) = 12 /\
  category (add_stocks Examples.milk_item
              [(1, Date.mkdate 2031 5 5); (1, Date.mkdate 2030 1 2)]) = "Dairy".
Proof.
  assert (Hg : Py.get "Milk" (items Examples.milk) = Some Examples.milk_item)
    by (vm_compute; reflexivity).
  assert (Hp : parse_dates (d_expiry_dates Examples.milk_entry) =
               Some [Date.mkdate 2031 5 5; Date.mkdate 2030 1 2])
    by reflexivity.
  destruct (import_adds_to_an_existing_item Examples.milk "Milk"
              Examples.milk_entry _ Examples.milk_item Examples.today Hg Hp)
    as (H1 & _ & H2 & _ & H3 & _).
  split; [exact Hg |]. split; [exact Hp |]. split; [exact H1 |].
  split; [exact H2 | exact H3].
Defined.

(** The export of the fruit registry. *)
Lemma export_on_fruit :
  reachable Examples.fruit /\
  Py.keys (export_to_json Examples.fruit) = ["pear"; "apple"] /\
  forall k it,
    Py.get k (items Examples.fruit) = Some it ->
    Py.get k (export_to_json Examples.fruit) = Some (to_dict it).
Proof.
  assert (H : reachable Examples.fruit).
  { apply (run_reachable Examples.fruit_ops Examples.empty);
      [apply reach_init | vm_compute; reflexivity]. }
  destruct (export_lists_every_item Examples.fruit H) as [Hk Hall].
  split; [exact H |]. split; [rewrite Hk; vm_compute; reflexivity |].
  intros k it Hget. apply (Hall k it Hget).
Defined.

(** ** The report on the sample runs *)

(** C10 fails on a quantity beyond the range of a float: with one item
    stocked with 10^400 units, [generate_report] with the empty string
    as filter raises [OverflowError] and returns no row, as it does with
    no filter. *)
Lemma report_raises_on_a_huge_quantity :
  reachable Examples.gold /\
  length (items Examples.gold) = 1%nat /\
  option_map quantity (Py.get "Gold" (items Examples.gold)) = Some (10 ^ 400) /\
  generate_report Z.mul Py.str_int Examples.gold (Some "") =
    Raise OverflowError /\
  generate_report Z.mul Py.str_int Examples.gold None = Raise OverflowError.
Proof.
  split.
  - apply (run_reachable Examples.gold_ops Examples.empty);
      [apply reach_init | vm_compute; reflexivity].
  - repeat split; vm_compute; reflexivity.
Qed.

(** The report with the empty filter on the fruit registry, whose
    quantities convert to floats, and on the registry with 10^400
    units. *)
Lemma report_with_empty_filter_on_sample_runs :
  Forall (fun e => overflows (snd e) = false) (items Examples.fruit) /\
  (exists rows,
     generate_report Z.mul Py.str_int Examples.fruit (Some "") = Ok rows /\
     map Name rows = ["apple"; "pear"] /\
     length rows = length (items Examples.fruit)) /\
  Exists (fun e => overflows (snd e) = true) (items Examples.gold) /\
  generate_report Z.mul Py.str_int Examples.gold (Some "") =
    Raise OverflowError.
Proof.
  assert (Hf : Forall (fun e => overflows (snd e) = false)
                 (items Examples.fruit)).
  { vm_compute. repeat constructor. }
  assert (Hg : Exists (fun e => overflows (snd e) = true)
                 (items Examples.gold)).
  { vm_compute. constructor. reflexivity. }
  destruct (report_with_empty_filter_is_unfiltered Z.mul Py.str_int
              Examples.fruit) as (_ & Hok & Hrows & _).
  destruct (report_with_empty_filter_is_unfiltered Z.mul Py.str_int
              Examples.gold) as (_ & _ & _ & Hraise).
  split; [exact Hf |]. split; [| split; [exact Hg | exact (Hraise Hg)]].
  eexists. split; [exact (Hok Hf) |].
  destruct (Hrows _ (Hok Hf)) as [_ Hlen].
  split; [vm_compute; reflexivity | exact Hlen].
Defined.

Example strptime_fullwidth_year :
  Date.strptime "２０２４-01-01" = Some (Date.mkdate 2024 1 1).
Proof. reflexivity. Qed.

Example strptime_arabic_indic_day :
  Date.strptime "2024-01-1٥" = Some (Date.mkdate 2024 1 15).
Proof. reflexivity. Qed.

Example strptime_arabic_indic_month : Date.strptime "2024-0١-01" = None.
Proof. reflexivity. Qed.

Example float_overflows_threshold :
  Py.float_overflows (2 ^ 1024 - 2 ^ 970 - 1) = false /\
  Py.float_overflows (2 ^ 1024 - 2 ^ 970) = true /\
  Py.float_overflows (- (2 ^ 1024 - 2 ^ 970)) = true.
Proof. repeat split; vm_compute; reflexivity. Qed.
